(** * jiacrontab_admin/user.go: the user handlers of the admin server

    A shallow embedding of the HTTP handlers [Login], [AuditJob] and
    [GetUserList] of [jiacrontab_admin/user.go].  A handler is a sequence of
    calls on its collaborators (request parsing, the credential store, the
    node RPC channel, the event publisher, the database) with early
    [return]s.  It is embedded as a state-passing computation that logs each
    call in a trace; the collaborators' answers are the fields of a record
    that the theorems quantify over. *)

From Stdlib Require Import ZArith NArith String List Bool Lia.
Import ListNotations.

Local Open Scope string_scope.
Local Open Scope list_scope.

(** ** Go base types *)

(** [uint]: only compared for equality in this file, never computed with. *)
Definition uint := N.

(** [int] and [int64] (64-bit on the platforms the server runs on): a [Z]
    with the two's complement wrap-around written out. *)
Definition int64 := Z.



Definition wrap64 (z : Z) : int64 :=
  ((z + 2 ^ 63) mod 2 ^ 64 - 2 ^ 63)%Z.

Definition add64 (a b : int64) : int64 := wrap64 (a + b).
Definition sub64 (a b : int64) : int64 := wrap64 (a - b).

(** [error]: the handlers only build errors with [errors.New], pass on the
    errors of their collaborators, and compare with [sql.ErrNoRows]. *)
Inductive error : Type :=
| sql_ErrNoRows
| errors_New (msg : string).

Definition is_ErrNoRows (e : error) : bool :=
  match e with sql_ErrNoRows => true | errors_New _ => false end.

(** ** package time

    An instant is its number of nanoseconds since the Unix epoch; a
    [Duration] is a number of nanoseconds. *)
Module time.
Definition Time := Z.
Definition Duration := Z.

Definition Nanosecond : Duration := 1%Z.
Definition Second : Duration := (1000000000 * Nanosecond)%Z.
Definition Minute : Duration := (60 * Second)%Z.
Definition Hour : Duration := (60 * Minute)%Z.

Definition Add (t : Time) (d : Duration) : Time := (t + d)%Z.
Definition Unix (t : Time) : int64 := (t / 1000000000)%Z.
End time.

(** ** package strings *)
Module strings.
(** [strings.Join]: the first element, then each further element after
    a separator; the empty string for no element. *)
Definition Join (elems : list string) (sep : string) : string :=
  match elems with
  | [] => ""
  | s :: rest => fold_left (fun b x => (b ++ sep ++ x)%string) rest s
  end.
End strings.

(** ** package models (the fields the handlers use) *)
Module models.
Record User : Type := mkUser {
  ID : uint;
  Username : string;
  Passwd : string;
  Mail : string;
  GroupID : uint;
  Root : bool
}.

Definition zeroUser : User := mkUser 0%N "" "" "" 0%N false.

Module CrontabJob.
Record t : Type := mk { ID : uint; Name : string }.
End CrontabJob.

Module DaemonJob.
Record t : Type := mk { ID : uint; Name : string }.
End DaemonJob.
End models.

(** ** package proto *)
Module proto.
Record AuditJobArgs : Type := mkAuditJobArgs { JobIDs : list uint }.
End proto.

(** ** Request bodies (params.go) *)
Module LoginReqParams.
Record t : Type := mk { Username : string; Passwd : string; Remember : bool }.
End LoginReqParams.

Module AuditJobReqParams.
Record t : Type := mk { JobIDs : list uint; Addr : string; JobType : string }.
End AuditJobReqParams.

Module GetUsersParams.
Record t : Type := mk {
  IsAll : bool;
  QueryGroupID : uint;
  Page : int64;
  Pagesize : int64
}.

Definition set_QueryGroupID (g : uint) (p : t) : t :=
  mk (IsAll p) g (Page p) (Pagesize p).
End GetUsersParams.

(** ** CustomerClaims

    [ExpiresAt] is the field of the embedded [jwt.StandardClaims] that the
    handlers write. *)
Record CustomerClaims : Type := mkCustomerClaims {
  ExpiresAt : int64;
  UserID : uint;
  Mail : string;
  Username : string;
  GroupID : uint;
  Root : bool
}.

Definition zeroClaims : CustomerClaims := mkCustomerClaims 0%Z 0%N "" "" 0%N false.

Definition set_ExpiresAt (v : int64) (c : CustomerClaims) : CustomerClaims :=
  mkCustomerClaims v (UserID c) (Mail c) (Username c) (GroupID c) (Root c).
Definition set_Username (v : string) (c : CustomerClaims) : CustomerClaims :=
  mkCustomerClaims (ExpiresAt c) (UserID c) (Mail c) v (GroupID c) (Root c).
Definition set_UserID (v : uint) (c : CustomerClaims) : CustomerClaims :=
  mkCustomerClaims (ExpiresAt c) v (Mail c) (Username c) (GroupID c) (Root c).
Definition set_Mail (v : string) (c : CustomerClaims) : CustomerClaims :=
  mkCustomerClaims (ExpiresAt c) (UserID c) v (Username c) (GroupID c) (Root c).
Definition set_GroupID (v : uint) (c : CustomerClaims) : CustomerClaims :=
  mkCustomerClaims (ExpiresAt c) (UserID c) (Mail c) (Username c) v (Root c).
Definition set_Root (v : bool) (c : CustomerClaims) : CustomerClaims :=
  mkCustomerClaims (ExpiresAt c) (UserID c) (Mail c) (Username c) (GroupID c) v.

(** ** What a handler does to the outside *)

(** The event tags passed to [ctx.pubEvent]. *)
Inductive EventKind : Type :=
| event_AuditCrontabJob
| event_AuditDaemonJob
| event_SignUpUser
| event_GroupUser.

(** The data argument of [ctx.respSucc]. *)
Inductive RespData : Type :=
| data_nil
| data_login (token : string) (groupID : uint) (root : bool) (mail : string)
             (userID : uint)
| data_userList (list : list models.User) (total : int64) (page : int64)
                (pagesize : int64).

(** The responses a handler writes with the [ctx.resp...] methods. *)
Inductive Response : Type :=
| ParamError (e : error)
| AuthFailed (e : error)
| BasicError (e : error)
| JWTError (e : error)
| DBError (e : error)
| RPCError (e : error)
| NotAllowed
| Succ (msg : string) (data : RespData).

(** The gorm queries of [GetUserList]: [Where("group_id=?", g)] is
    [Some g], [Offset] and [Limit] as given. *)
Inductive Query : Type :=
| Count_users (group : option uint)
| Find_users (group : option uint) (offset : option int64) (limit : int64).

(** One entry of the trace per call that leaves the handler; a remote call
    is logged with the error it returned ([None] for [nil]). *)
Inductive Effect : Type :=
| E_resp (r : Response)
| E_rpcCall (addr method : string) (args : proto.AuditJobArgs) (err : option error)
| E_pubEvent (subject : string) (kind : EventKind) (addr : string)
             (payload : AuditJobReqParams.t)
| E_SignedString (c : CustomerClaims) (key : string)
| E_parseClaimsFromToken
| E_db (q : Query).

(** A record of the audit trail. *)
Record Event : Type := mkEvent {
  Subject : string;
  Kind : EventKind;
  EventAddr : string;
  Payload : AuditJobReqParams.t;
  Actor : uint
}.

(** ** The collaborators

    Everything a handler calls that is not in [user.go]: configuration, the
    clock, request parsing, the credential store, token signing, the
    permission check, the RPC channel, the audit-trail store and the
    database.  Each field is the answer of one collaborator. *)
Record Collab : Type := mkCollab {
  (* cfg.Jwt.Expires, cfg.Jwt.SigningKey, models.SuperGroup.ID *)
  cfg_Jwt_Expires : int64;
  cfg_Jwt_SigningKey : string;
  SuperGroup_ID : uint;
  (* time.Now(): the n-th reading of the clock during the request *)
  time_Now : nat -> time.Time;
  (* ctx.Valid(&reqBody) in Login: the body as parsed, and the error *)
  Valid_Login : LoginReqParams.t * option error;
  (* user.Verify(username, passwd): the verdict and the user as loaded *)
  User_Verify : string -> string -> bool * models.User;
  (* jwt.NewWithClaims(HS256, claims).SignedString(key) *)
  SignedString : CustomerClaims -> string -> string * option error;
  (* reqBody.verify(ctx) in AuditJob: the body as parsed, the claims it
     leaves in ctx.claims, and the error *)
  verify_AuditJob : AuditJobReqParams.t * CustomerClaims * option error;
  (* node.VerifyUserGroup behind ctx.verifyNodePermission(addr), reading
     ctx.claims *)
  VerifyUserGroup : CustomerClaims -> string -> bool;
  (* rpcCall(addr, method, args, &reply), by type of the reply *)
  rpcCall_CrontabJob :
    string -> string -> proto.AuditJobArgs -> list models.CrontabJob.t * option error;
  rpcCall_DaemonJob :
    string -> string -> proto.AuditJobArgs -> list models.DaemonJob.t * option error;
  (* whether the audit-trail store accepts the event *)
  store_Append : Event -> bool;
  (* ctx.Valid(&reqBody) in GetUserList *)
  Valid_GetUsers : GetUsersParams.t * option error;
  (* ctx.parseClaimsFromToken(): the claims it leaves in ctx.claims *)
  claimsFromToken : CustomerClaims * option error;
  (* the database: Count(&total).Error and Find(&userList).Error *)
  db_Count : Query -> int64 * option error;
  db_Find : Query -> list models.User * option error
}.

(** ** Handlers as state-passing computations *)

(** The state a handler threads: [ctx.claims], the trace of its calls in
    the order they were made, the audit-trail store, and how many times the
    clock has been read. *)
Record State : Type := mkState {
  claims : CustomerClaims;
  trace : list Effect;
  store : list Event;
  ticks : nat
}.

(** [wrapCtx(c)]: fresh context, nothing done yet, over a given store. *)
Definition wrapCtx (st0 : list Event) : State :=
  mkState zeroClaims [] st0 0.

(** A computation returns [Some a] to go on with [a], or [None] once the
    handler has executed [return]. *)
Definition Handler (A : Type) : Type := State -> option A * State.

Definition ret {A} (a : A) : Handler A := fun s => (Some a, s).

Definition bind {A B} (m : Handler A) (f : A -> Handler B) : Handler B :=
  fun s =>
    match m s with
    | (Some a, s') => f a s'
    | (None, s') => (None, s')
    end.

(** Go's [return] statement. *)
Definition Return {A} : Handler A := fun s => (None, s).

Declare Scope handler_scope.
Delimit Scope handler_scope with handler.
Notation "x <- m ;; k" := (bind m (fun x => k))
  (at level 61, m at next level, right associativity) : handler_scope.
Notation "m ;; k" := (bind m (fun _ => k))
  (at level 61, right associativity) : handler_scope.
Local Open Scope handler_scope.

Definition log (e : Effect) : Handler unit :=
  fun s => (Some tt, mkState (claims s) (trace s ++ [e]) (store s) (ticks s)).

Definition get_claims : Handler CustomerClaims :=
  fun s => (Some (claims s), s).

Definition put_claims (c : CustomerClaims) : Handler unit :=
  fun s => (Some tt, mkState c (trace s) (store s) (ticks s)).

(** [if cond { body }] with no else branch. *)
Definition when (cond : bool) (body : Handler unit) : Handler unit :=
  if cond then body else ret tt.

(** [if err != nil && err != sql.ErrNoRows { body }]. *)
Definition if_err_not_ErrNoRows (err : option error) (body : error -> Handler unit)
  : Handler unit :=
  match err with
  | Some e => if is_ErrNoRows e then ret tt else body e
  | None => ret tt
  end.

(** [if err != nil { body }]. *)
Definition if_err (err : option error) (body : error -> Handler unit) : Handler unit :=
  match err with
  | Some e => body e
  | None => ret tt
  end.

(** The state after running a handler on a fresh context. *)
Definition run (h : Handler unit) (st0 : list Event) : State :=
  snd (h (wrapCtx st0)).

(** The responses written, the remote calls issued and the events
    published, as read off a trace. *)
Definition responses (tr : list Effect) : list Response :=
  flat_map (fun e => match e with E_resp r => [r] | _ => [] end) tr.

Definition is_rpcCall (e : Effect) : bool :=
  match e with E_rpcCall _ _ _ _ => true | _ => false end.

Definition is_pubEvent (e : Effect) : bool :=
  match e with E_pubEvent _ _ _ _ => true | _ => false end.

(** The address, method and job IDs of each remote call of a trace. *)
Definition rpcCalled (tr : list Effect) : list (string * string * list uint) :=
  flat_map (fun e => match e with
                     | E_rpcCall addr method args _ => [(addr, method, proto.JobIDs args)]
                     | _ => []
                     end) tr.

Definition rpcCalls (tr : list Effect) : list Effect := filter is_rpcCall tr.
Definition pubEvents (tr : list Effect) : list Effect := filter is_pubEvent tr.

Section Handlers.
Variable W : Collab.

(** *** The methods of [ctx] *)

Definition respParamError (e : error) : Handler unit := log (E_resp (ParamError e)).
Definition respAuthFailed (e : error) : Handler unit := log (E_resp (AuthFailed e)).
Definition respBasicError (e : error) : Handler unit := log (E_resp (BasicError e)).
Definition respJWTError (e : error) : Handler unit := log (E_resp (JWTError e)).
Definition respDBError (e : error) : Handler unit := log (E_resp (DBError e)).
Definition respRPCError (e : error) : Handler unit := log (E_resp (RPCError e)).
Definition respNotAllowed : Handler unit := log (E_resp NotAllowed).
Definition respSucc (msg : string) (data : RespData) : Handler unit :=
  log (E_resp (Succ msg data)).

Definition parseClaimsFromToken : Handler (option error) :=
  log E_parseClaimsFromToken ;;
  put_claims (fst (claimsFromToken W)) ;;
  ret (snd (claimsFromToken W)).

Definition verifyNodePermission (addr : string) : Handler bool :=
  c <- get_claims ;;
  ret (VerifyUserGroup W c addr).

(** Modelled from the spec: [ctx.pubEvent] is not in [user.go].  The
    EventPublisher hands the event to the audit-trail store; when the
    store refuses it the failure is swallowed, and nothing is returned to
    the handler either way. *)
Definition pubEvent (subject : string) (kind : EventKind) (addr : string)
    (payload : AuditJobReqParams.t) : Handler unit :=
  log (E_pubEvent subject kind addr payload) ;;
  fun s =>
    let ev := mkEvent subject kind addr payload (UserID (claims s)) in
    if store_Append W ev
    then (Some tt, mkState (claims s) (trace s) (store s ++ [ev]) (ticks s))
    else (Some tt, s).

(** *** Free functions *)

Definition Now : Handler time.Time :=
  fun s => (Some (time_Now W (ticks s)),
            mkState (claims s) (trace s) (store s) (S (ticks s))).

Definition rpcCall_crontab (addr method : string) (args : proto.AuditJobArgs)
  : Handler (list models.CrontabJob.t * option error) :=
  let r := rpcCall_CrontabJob W addr method args in
  log (E_rpcCall addr method args (snd r)) ;;
  ret r.

Definition rpcCall_daemon (addr method : string) (args : proto.AuditJobArgs)
  : Handler (list models.DaemonJob.t * option error) :=
  let r := rpcCall_DaemonJob W addr method args in
  log (E_rpcCall addr method args (snd r)) ;;
  ret r.

Definition jwt_SignedString (c : CustomerClaims) (key : string)
  : Handler (string * option error) :=
  log (E_SignedString c key) ;;
  ret (SignedString W c key).

Definition DB_Count (q : Query) : Handler (int64 * option error) :=
  log (E_db q) ;;
  ret (db_Count W q).

Definition DB_Find (q : Query) : Handler (list models.User * option error) :=
  log (E_db q) ;;
  ret (db_Find W q).

(** *** Login (user.go, lines 27-70) *)
Definition Login : Handler unit :=
  let customerClaims := zeroClaims in
  let (reqBody, err) := Valid_Login W in
  if_err err (fun e => respParamError e ;; Return) ;;
  let (ok, user) :=
    User_Verify W (LoginReqParams.Username reqBody) (LoginReqParams.Passwd reqBody) in
  when (negb ok)
    (respAuthFailed (errors_New "帐号或密码不正确") ;; Return) ;;
  now <- Now ;;
  let customerClaims :=
    set_ExpiresAt (add64 (cfg_Jwt_Expires W) (time.Unix now)) customerClaims in
  let customerClaims := set_Username (LoginReqParams.Username reqBody) customerClaims in
  let customerClaims := set_UserID (models.ID user) customerClaims in
  let customerClaims := set_Mail (models.Mail user) customerClaims in
  let customerClaims := set_GroupID (models.GroupID user) customerClaims in
  let customerClaims := set_Root (models.Root user) customerClaims in
  customerClaims <-
    (if LoginReqParams.Remember reqBody
     then now <- Now ;;
          ret (set_ExpiresAt
                 (time.Unix (time.Add now (24 * 30 * time.Hour)%Z))
                 customerClaims)
     else ret customerClaims) ;;
  r <- jwt_SignedString customerClaims (cfg_Jwt_SigningKey W) ;;
  let (token, err) := r in
  if_err err (fun _ => respAuthFailed (errors_New "无法生成访问凭证") ;; Return) ;;
  respSucc "" (data_login token (models.GroupID user) (models.Root user)
                 (models.Mail user) (models.ID user)).

(** *** AuditJob (user.go, lines 155-206) *)
Definition AuditJob : Handler unit :=
  let '(reqBody, c, err) := verify_AuditJob W in
  put_claims c ;;
  if_err err (fun e => respBasicError e ;; Return) ;;
  ok <- verifyNodePermission (AuditJobReqParams.Addr reqBody) ;;
  when (negb ok) (respNotAllowed ;; Return) ;;
  c <- get_claims ;;
  when (negb (GroupID c =? SuperGroup_ID W)%N && negb (Root c))
    (respNotAllowed ;; Return) ;;
  (if (AuditJobReqParams.JobType reqBody =? "crontab")%string
   then
     r <- rpcCall_crontab (AuditJobReqParams.Addr reqBody) "CrontabJob.Audit"
            (proto.mkAuditJobArgs (AuditJobReqParams.JobIDs reqBody)) ;;
     let (reply, err) := r in
     if_err err (fun e => respRPCError e ;; Return) ;;
     let targetNames :=
       fold_left (fun names v => names ++ [models.CrontabJob.Name v]) reply [] in
     pubEvent (strings.Join targetNames ",") event_AuditCrontabJob
       (AuditJobReqParams.Addr reqBody) reqBody
   else
     r <- rpcCall_daemon (AuditJobReqParams.Addr reqBody) "DaemonJob.Audit"
            (proto.mkAuditJobArgs (AuditJobReqParams.JobIDs reqBody)) ;;
     let (reply, err) := r in
     if_err err (fun e => respRPCError e ;; Return) ;;
     let targetNames :=
       fold_left (fun names v => names ++ [models.DaemonJob.Name v]) reply [] in
     pubEvent (strings.Join targetNames ",") event_AuditDaemonJob
       (AuditJobReqParams.Addr reqBody) reqBody) ;;
  respSucc "" data_nil.

(** *** GetUserList (user.go, lines 358-419) *)
Definition GetUserList : Handler unit :=
  let (reqBody, err) := Valid_GetUsers W in
  if_err err (fun e => respParamError e) ;;
  err <- parseClaimsFromToken ;;
  if_err err (fun e => respJWTError e ;; Return) ;;
  c <- get_claims ;;
  when (GetUsersParams.IsAll reqBody && negb (GroupID c =? SuperGroup_ID W)%N)
    (respNotAllowed ;; Return) ;;
  when (negb (GetUsersParams.IsAll reqBody)
        && negb (GetUsersParams.QueryGroupID reqBody =? GroupID c)%N
        && negb (GroupID c =? SuperGroup_ID W)%N)
    (respNotAllowed ;; Return) ;;
  let reqBody :=
    if (GetUsersParams.QueryGroupID reqBody =? 0)%N
    then GetUsersParams.set_QueryGroupID (GroupID c) reqBody
    else reqBody in
  r <- (if GetUsersParams.IsAll reqBody
        then DB_Count (Count_users None)
        else DB_Count (Count_users (Some (GetUsersParams.QueryGroupID reqBody)))) ;;
  let (total, err) := r in
  if_err_not_ErrNoRows err (fun e => respBasicError e ;; Return) ;;
  r <- (if GetUsersParams.IsAll reqBody
        then DB_Find (Find_users None None (GetUsersParams.Pagesize reqBody))
        else DB_Find (Find_users (Some (GetUsersParams.QueryGroupID reqBody))
                        (Some (sub64 (GetUsersParams.Page reqBody) 1%Z))
                        (GetUsersParams.Pagesize reqBody))) ;;
  let (userList, err) := r in
  if_err_not_ErrNoRows err (fun e => respDBError e ;; Return) ;;
  respSucc "" (data_userList userList total (GetUsersParams.Page reqBody)
                 (GetUsersParams.Pagesize reqBody)).

End Handlers.

(** ** Updating one collaborator *)

Definition set_Valid_Login (v : LoginReqParams.t * option error) (W : Collab) : Collab :=
  mkCollab (cfg_Jwt_Expires W) (cfg_Jwt_SigningKey W) (SuperGroup_ID W) (time_Now W)
    v (User_Verify W) (SignedString W) (verify_AuditJob W) (VerifyUserGroup W)
    (rpcCall_CrontabJob W) (rpcCall_DaemonJob W) (store_Append W) (Valid_GetUsers W)
    (claimsFromToken W) (db_Count W) (db_Find W).

Definition set_verify_AuditJob (v : AuditJobReqParams.t * CustomerClaims * option error)
    (W : Collab) : Collab :=
  mkCollab (cfg_Jwt_Expires W) (cfg_Jwt_SigningKey W) (SuperGroup_ID W) (time_Now W)
    (Valid_Login W) (User_Verify W) (SignedString W) v (VerifyUserGroup W)
    (rpcCall_CrontabJob W) (rpcCall_DaemonJob W) (store_Append W) (Valid_GetUsers W)
    (claimsFromToken W) (db_Count W) (db_Find W).

Definition set_rpcCall_CrontabJob
    (f : string -> string -> proto.AuditJobArgs -> list models.CrontabJob.t * option error)
    (W : Collab) : Collab :=
  mkCollab (cfg_Jwt_Expires W) (cfg_Jwt_SigningKey W) (SuperGroup_ID W) (time_Now W)
    (Valid_Login W) (User_Verify W) (SignedString W) (verify_AuditJob W)
    (VerifyUserGroup W) f (rpcCall_DaemonJob W) (store_Append W) (Valid_GetUsers W)
    (claimsFromToken W) (db_Count W) (db_Find W).

Definition set_store_Append (f : Event -> bool) (W : Collab) : Collab :=
  mkCollab (cfg_Jwt_Expires W) (cfg_Jwt_SigningKey W) (SuperGroup_ID W) (time_Now W)
    (Valid_Login W) (User_Verify W) (SignedString W) (verify_AuditJob W)
    (VerifyUserGroup W) (rpcCall_CrontabJob W) (rpcCall_DaemonJob W) f
    (Valid_GetUsers W) (claimsFromToken W) (db_Count W) (db_Find W).

Definition set_Valid_GetUsers (v : GetUsersParams.t * option error) (W : Collab) : Collab :=
  mkCollab (cfg_Jwt_Expires W) (cfg_Jwt_SigningKey W) (SuperGroup_ID W) (time_Now W)
    (Valid_Login W) (User_Verify W) (SignedString W) (verify_AuditJob W)
    (VerifyUserGroup W) (rpcCall_CrontabJob W) (rpcCall_DaemonJob W) (store_Append W)
    v (claimsFromToken W) (db_Count W) (db_Find W).

Definition set_claimsFromToken (v : CustomerClaims * option error) (W : Collab) : Collab :=
  mkCollab (cfg_Jwt_Expires W) (cfg_Jwt_SigningKey W) (SuperGroup_ID W) (time_Now W)
    (Valid_Login W) (User_Verify W) (SignedString W) (verify_AuditJob W)
    (VerifyUserGroup W) (rpcCall_CrontabJob W) (rpcCall_DaemonJob W) (store_Append W)
    (Valid_GetUsers W) v (db_Count W) (db_Find W).

(** ** The guard and the stores, as the specification describes them *)

Module Guard.
(** Modelled from the spec: the AuthorizationGuard predicates of section
    4.2, which [node.VerifyUserGroup] and the [models] package implement
    outside [user.go]. *)
Definition IsSuper (super : uint) (c : CustomerClaims) : bool :=
  (GroupID c =? super)%N.

Definition IsPrivileged (super : uint) (c : CustomerClaims) : bool :=
  IsSuper super c || Root c.

Definition OwnsGroup (super : uint) (c : CustomerClaims) (target : uint) : bool :=
  (GroupID c =? target)%N || IsSuper super c.

(** The node-lookup collaborator: the owning group of each known address. *)
Definition ResolveNodeGroup (nodes : list (string * uint)) (addr : string)
  : option uint :=
  option_map snd (find (fun n => (fst n =? addr)%string) nodes).

Definition OwnsNode (super : uint) (nodes : list (string * uint))
    (c : CustomerClaims) (addr : string) : bool :=
  match ResolveNodeGroup nodes addr with
  | Some g => OwnsGroup super c g
  | None => false
  end.
End Guard.

Module Credentials.
(** Modelled from the spec: the credential store of section 6, behind
    [user.Verify]: look the user up by name, then check the password. *)
Definition FindByUsername (users : list models.User) (name : string)
  : option models.User :=
  find (fun u => (models.Username u =? name)%string) users.

Definition VerifyPassword (u : models.User) (plaintext : string) : bool :=
  (models.Passwd u =? plaintext)%string.

Definition Verify (users : list models.User) (name passwd : string)
  : bool * models.User :=
  match FindByUsername users name with
  | Some u => (VerifyPassword u passwd, u)
  | None => (false, models.zeroUser)
  end.
End Credentials.

(** ** A small installation, for concrete runs *)

Module Demo.
Definition users : list models.User :=
  [ models.mkUser 1 "admin" "s3cret" "admin@example.org" 1 true;
    models.mkUser 2 "alice" "wonderland" "alice@example.org" 7 false;
    models.mkUser 3 "bob" "builder" "bob@example.org" 7 true ]%N.

Definition nodes : list (string * uint) :=
  [ ("10.0.0.7:20001", 7%N); ("10.0.0.9:20001", 9%N) ].

Definition claims_of (u : models.User) : CustomerClaims :=
  mkCustomerClaims 1700003600%Z (models.ID u) (models.Mail u) (models.Username u)
    (models.GroupID u) (models.Root u).

Definition admin : CustomerClaims := claims_of (models.mkUser 1%N "admin" "" "admin@example.org" 1%N true).
Definition alice : CustomerClaims := claims_of (models.mkUser 2%N "alice" "" "alice@example.org" 7%N false).
Definition bob : CustomerClaims := claims_of (models.mkUser 3%N "bob" "" "bob@example.org" 7%N true).

Definition in_group (g : option uint) (u : models.User) : bool :=
  match g with
  | Some g => (models.GroupID u =? g)%N
  | None => true
  end.

Definition count (q : Query) : int64 * option error :=
  match q with
  | Count_users g => (Z.of_nat (length (filter (in_group g) users)), None)
  | Find_users _ _ _ => (0%Z, Some (errors_New "not a count"))
  end.

Definition find_users (q : Query) : list models.User * option error :=
  match q with
  | Find_users g offset limit =>
      (firstn (Z.to_nat limit)
         (skipn (Z.to_nat (match offset with Some o => o | None => 0%Z end))
            (filter (in_group g) users)), None)
  | Count_users _ => ([], Some (errors_New "not a find"))
  end.

(** The admin logs in, audits two crontab jobs on the node of group 7,
    and lists all users. *)
Definition W : Collab := {|
  cfg_Jwt_Expires := 3600%Z;
  cfg_Jwt_SigningKey := "signing-key";
  SuperGroup_ID := 1%N;
  time_Now := fun n => (1700000000 * 1000000000 + 250000000 * Z.of_nat n)%Z;
  Valid_Login := (LoginReqParams.mk "admin" "s3cret" false, None);
  User_Verify := Credentials.Verify users;
  SignedString := fun c key => (("jwt." ++ Username c)%string, None);
  verify_AuditJob :=
    (AuditJobReqParams.mk [1; 2]%N "10.0.0.7:20001" "crontab", admin, None);
  VerifyUserGroup := Guard.OwnsNode 1%N nodes;
  rpcCall_CrontabJob := fun _ _ _ =>
    ([models.CrontabJob.mk 1%N "backup"; models.CrontabJob.mk 2%N "cleanup"], None);
  rpcCall_DaemonJob := fun _ _ _ =>
    ([models.DaemonJob.mk 5%N "watcher"], None);
  store_Append := fun _ => true;
  Valid_GetUsers := (GetUsersParams.mk true 0%N 1%Z 20%Z, None);
  claimsFromToken := (admin, None);
  db_Count := count;
  db_Find := find_users
|}.

Definition audit (addr jobType : string) : AuditJobReqParams.t :=
  AuditJobReqParams.mk [1; 2]%N addr jobType.

(** Scenario A: alice (group 7, not root) audits the node of group 9. *)
Definition W_alice_foreign : Collab :=
  set_verify_AuditJob (audit "10.0.0.9:20001" "crontab", alice, None) W.

(** alice audits the node of her own group. *)
Definition W_alice_own : Collab :=
  set_verify_AuditJob (audit "10.0.0.7:20001" "crontab", alice, None) W.

(** bob (group 7, root) audits a daemon job on the node of his group. *)
Definition W_bob_daemon : Collab :=
  set_verify_AuditJob (audit "10.0.0.7:20001" "daemon", bob, None) W.

(** The node answers the admin's audit with an error. *)
Definition W_rpc_down : Collab :=
  set_rpcCall_CrontabJob (fun _ _ _ => ([], Some (errors_New "connection refused"))) W.

(** The audit-trail store refuses every event. *)
Definition W_store_down : Collab := set_store_Append (fun _ => false) W.

(** Logins: unknown user, wrong password, and "remember me". *)
Definition W_login_unknown : Collab :=
  set_Valid_Login (LoginReqParams.mk "mallory" "s3cret" false, None) W.
Definition W_login_wrong : Collab :=
  set_Valid_Login (LoginReqParams.mk "admin" "guess" false, None) W.

(** bob (root, group 7) asks for all users. *)
Definition W_bob_all : Collab := set_claimsFromToken (bob, None) W.

(** The admin's user-list request fails validation. *)
Definition W_list_invalid : Collab :=
  set_Valid_GetUsers (GetUsersParams.mk true 0%N 0%Z 0%Z, Some (errors_New "pagesize")) W.
End Demo.

(** ** Further installations, for concrete runs *)

Definition set_SignedString (f : CustomerClaims -> string -> string * option error)
    (W : Collab) : Collab :=
  mkCollab (cfg_Jwt_Expires W) (cfg_Jwt_SigningKey W) (SuperGroup_ID W) (time_Now W)
    (Valid_Login W) (User_Verify W) f (verify_AuditJob W) (VerifyUserGroup W)
    (rpcCall_CrontabJob W) (rpcCall_DaemonJob W) (store_Append W) (Valid_GetUsers W)
    (claimsFromToken W) (db_Count W) (db_Find W).

Definition set_db_Count (f : Query -> int64 * option error) (W : Collab) : Collab :=
  mkCollab (cfg_Jwt_Expires W) (cfg_Jwt_SigningKey W) (SuperGroup_ID W) (time_Now W)
    (Valid_Login W) (User_Verify W) (SignedString W) (verify_AuditJob W)
    (VerifyUserGroup W) (rpcCall_CrontabJob W) (rpcCall_DaemonJob W) (store_Append W)
    (Valid_GetUsers W) (claimsFromToken W) f (db_Find W).

Definition set_db_Find (f : Query -> list models.User * option error) (W : Collab)
  : Collab :=
  mkCollab (cfg_Jwt_Expires W) (cfg_Jwt_SigningKey W) (SuperGroup_ID W) (time_Now W)
    (Valid_Login W) (User_Verify W) (SignedString W) (verify_AuditJob W)
    (VerifyUserGroup W) (rpcCall_CrontabJob W) (rpcCall_DaemonJob W) (store_Append W)
    (Valid_GetUsers W) (claimsFromToken W) (db_Count W) f.

Module Cases.
(** The signer has no key. *)
Definition W_no_key : Collab :=
  set_SignedString (fun _ _ => ("", Some (errors_New "key is invalid"))) Demo.W.

(** alice (group 7) lists the users of her group, second page of 2. *)
Definition W_alice_group : Collab :=
  set_claimsFromToken (Demo.alice, None)
    (set_Valid_GetUsers (GetUsersParams.mk false 7%N 2%Z 2%Z, None) Demo.W).

(** alice leaves the group out of her request. *)
Definition W_alice_no_group : Collab :=
  set_claimsFromToken (Demo.alice, None)
    (set_Valid_GetUsers (GetUsersParams.mk false 0%N 1%Z 20%Z, None) Demo.W).

(** The admin leaves the group out, without asking for all users. *)
Definition W_admin_no_group : Collab :=
  set_Valid_GetUsers (GetUsersParams.mk false 0%N 1%Z 20%Z, None) Demo.W.

(** The database is down, or reports no rows, when counting. *)
Definition W_count_down : Collab :=
  set_db_Count (fun _ => (0%Z, Some (errors_New "connection lost"))) Demo.W.
Definition W_count_no_rows : Collab :=
  set_db_Count (fun _ => (0%Z, Some sql_ErrNoRows)) Demo.W.

(** The database is down when the rows are fetched. *)
Definition W_find_down : Collab :=
  set_db_Find (fun _ => ([], Some (errors_New "connection lost"))) Demo.W.
End Cases.

(** ** The other handlers of user.go

    [GetActivityList], [GetJobHistory], [IninAdminUser], [Signup],
    [UserStat] and [GroupUser] call collaborators of their own (other
    request bodies, other queries, [ctx.isSuper], [ctx.getGroupAddr],
    [cfg.SetUsed]); they are embedded in the same way, over their own trace
    of calls. *)
Module Mgmt.

(** *** Request bodies and rows (the fields the handlers use) *)
Module ReadMoreReqParams.
Record t : Type := mk { LastID : int64; Pagesize : int64; Orderby : string }.
End ReadMoreReqParams.

Module UserReqParams.
Record t : Type := mk {
  Username : string;
  Passwd : string;
  GroupID : uint;
  Root : bool;
  Mail : string
}.
End UserReqParams.

Module SetGroupReqParams.
Record t : Type := mk {
  TargetGroupID : uint;
  TargetGroupName : string;
  UserID : uint;
  Root : bool
}.

Definition set_TargetGroupID (g : uint) (p : t) : t :=
  mk g (TargetGroupName p) (UserID p) (Root p).
End SetGroupReqParams.

Module Group.
Record t : Type := mk { ID : uint; Name : string }.
End Group.

Module EventRow.
Record t : Type := mk { ID : uint; UserID : uint; TargetName : string }.
End EventRow.

Module JobHistory.
Record t : Type := mk { ID : uint; Addr : string; JobName : string }.
End JobHistory.

(** The anonymous struct that [UserStat] scans the sums into. *)
Record AuditNumStat : Type := mkAuditNumStat {
  CrontabJobAuditNum : uint;
  DaemonJobAuditNum : uint;
  CrontabJobFailNum : uint;
  DaemonJobRunningNum : uint;
  NodeNum : uint
}.

(** Assignments to the fields of a [models.User]. *)
Definition user_with_ID (v : uint) (u : models.User) : models.User :=
  models.mkUser v (models.Username u) (models.Passwd u) (models.Mail u)
    (models.GroupID u) (models.Root u).
Definition user_with_Username (v : string) (u : models.User) : models.User :=
  models.mkUser (models.ID u) v (models.Passwd u) (models.Mail u)
    (models.GroupID u) (models.Root u).
Definition user_with_Passwd (v : string) (u : models.User) : models.User :=
  models.mkUser (models.ID u) (models.Username u) v (models.Mail u)
    (models.GroupID u) (models.Root u).
Definition user_with_Mail (v : string) (u : models.User) : models.User :=
  models.mkUser (models.ID u) (models.Username u) (models.Passwd u) v
    (models.GroupID u) (models.Root u).
Definition user_with_GroupID (v : uint) (u : models.User) : models.User :=
  models.mkUser (models.ID u) (models.Username u) (models.Passwd u) (models.Mail u)
    v (models.Root u).
Definition user_with_Root (v : bool) (u : models.User) : models.User :=
  models.mkUser (models.ID u) (models.Username u) (models.Passwd u) (models.Mail u)
    (models.GroupID u) v.

(** [err.Error()]. *)
Definition Error (e : error) : string :=
  match e with
  | sql_ErrNoRows => "sql: no rows in result set"
  | errors_New msg => msg
  end.

(** *** What these handlers do to the outside *)

(** The request body handed to [ctx.pubEvent]. *)
Inductive Payload : Type :=
| payload_User (p : UserReqParams.t)
| payload_SetGroup (p : SetGroupReqParams.t).

Inductive RespData : Type :=
| data_nil
| data_true
| data_events (list : list EventRow.t) (pagesize : int64)
| data_history (list : list JobHistory.t) (pagesize : int64)
| data_stat (systemInfo : string) (auditStat : AuditNumStat).

(** [RespError msg data] is [ctx.respError(proto.Code_Error, msg, data)],
    the only code these handlers pass. *)
Inductive Response : Type :=
| ParamError (e : error)
| BasicError (e : error)
| JWTError (e : error)
| DBError (e : error)
| NotAllowed
| RespError (msg : string) (data : option error)
| Succ (msg : string) (data : RespData).

(** The gorm calls: the [Where] arguments, [Order], [Limit], and the
    record written by [Create], [Save] and [SetGroup]. *)
Inductive Query : Type :=
| Find_events (user_id : uint) (id_below : option int64) (order : string)
              (limit : int64)
| Find_history (addrs : list string) (id_below : option int64) (order : string)
               (limit : int64)
| Take_user (group_id : uint)
| Create_user (u : models.User)
| Save_group (g : Group.t)
| SetGroup_user (u : models.User)
| Scan_stat (group_id : uint).

Inductive Effect : Type :=
| E_resp (r : Response)
| E_db (q : Query)
| E_parseClaimsFromToken
| E_getGroupAddr
| E_pubEvent (subject : string) (kind : EventKind) (addr : string) (payload : Payload)
| E_SetUsed.

(** *** The collaborators of these handlers *)
Record World : Type := mkWorld {
  (* models.SuperGroup.ID *)
  SuperGroup_ID : uint;
  (* util.SystemInfo(cfg.ServerStartTime) *)
  SystemInfo : string;
  (* reqBody.verify(ctx) of ReadMoreReqParams: the body and the error *)
  verify_ReadMore : ReadMoreReqParams.t * option error;
  (* ctx.parseClaimsFromToken(): the claims it leaves in ctx.claims *)
  claimsFromToken : CustomerClaims * option error;
  (* ctx.getGroupAddr() *)
  GroupAddr : list string * option error;
  (* ctx.isSuper() *)
  IsSuper : bool;
  (* ctx.Valid(&reqBody) for UserReqParams and for SetGroupReqParams *)
  Valid_User : UserReqParams.t * option error;
  Valid_SetGroup : SetGroupReqParams.t * option error;
  (* Find(&events).Error and Find(&historys).Error *)
  db_Find_events : Query -> list EventRow.t * option error;
  db_Find_history : Query -> list JobHistory.t * option error;
  (* Take(&user, ...): the user as left, ret.Error, ret.RowsAffected *)
  db_Take : Query -> models.User * option error * int64;
  (* user.Create(), DB().Save(&group), user.SetGroup(): the record as left
     and the error *)
  db_Create : models.User -> models.User * option error;
  db_Save : Group.t -> Group.t * option error;
  db_SetGroup : models.User -> models.User * option error;
  (* Raw(...).Scan(&auditNumStat).Error *)
  db_Scan : Query -> AuditNumStat * option error
}.

(** *** Handlers as state-passing computations *)
Record State : Type := mkState {
  claims : CustomerClaims;
  trace : list Effect
}.

Definition wrapCtx : State := mkState zeroClaims [].

Definition Handler (A : Type) : Type := State -> option A * State.

Definition ret {A} (a : A) : Handler A := fun s => (Some a, s).

Definition bind {A B} (m : Handler A) (f : A -> Handler B) : Handler B :=
  fun s =>
    match m s with
    | (Some a, s') => f a s'
    | (None, s') => (None, s')
    end.

Definition Return {A} : Handler A := fun s => (None, s).

Declare Scope mgmt_scope.
Delimit Scope mgmt_scope with mgmt.
Notation "x <- m ;; k" := (bind m (fun x => k))
  (at level 61, m at next level, right associativity) : mgmt_scope.
Notation "m ;; k" := (bind m (fun _ => k))
  (at level 61, right associativity) : mgmt_scope.
Local Open Scope mgmt_scope.

Definition log (e : Effect) : Handler unit :=
  fun s => (Some tt, mkState (claims s) (trace s ++ [e])).

Definition get_claims : Handler CustomerClaims :=
  fun s => (Some (claims s), s).

Definition put_claims (c : CustomerClaims) : Handler unit :=
  fun s => (Some tt, mkState c (trace s)).

Definition when (cond : bool) (body : Handler unit) : Handler unit :=
  if cond then body else ret tt.

Definition if_err (err : option error) (body : error -> Handler unit) : Handler unit :=
  match err with
  | Some e => body e
  | None => ret tt
  end.

Definition if_err_not_ErrNoRows (err : option error) (body : error -> Handler unit)
  : Handler unit :=
  match err with
  | Some e => if is_ErrNoRows e then ret tt else body e
  | None => ret tt
  end.

Definition is_nil (err : option error) : bool :=
  match err with
  | None => true
  | Some _ => false
  end.

Definition run (h : Handler unit) : State := snd (h wrapCtx).

Definition responses (tr : list Effect) : list Response :=
  flat_map (fun e => match e with E_resp r => [r] | _ => [] end) tr.

Definition queries (tr : list Effect) : list Query :=
  flat_map (fun e => match e with E_db q => [q] | _ => [] end) tr.

Definition is_pubEvent (e : Effect) : bool :=
  match e with E_pubEvent _ _ _ _ => true | _ => false end.

Definition pubEvents (tr : list Effect) : list Effect := filter is_pubEvent tr.

Section Handlers.
Variable W : World.

Definition respParamError (e : error) : Handler unit := log (E_resp (ParamError e)).
Definition respBasicError (e : error) : Handler unit := log (E_resp (BasicError e)).
Definition respJWTError (e : error) : Handler unit := log (E_resp (JWTError e)).
Definition respDBError (e : error) : Handler unit := log (E_resp (DBError e)).
Definition respNotAllowed : Handler unit := log (E_resp NotAllowed).
Definition respError (msg : string) (data : option error) : Handler unit :=
  log (E_resp (RespError msg data)).
Definition respSucc (msg : string) (data : RespData) : Handler unit :=
  log (E_resp (Succ msg data)).

Definition parseClaimsFromToken : Handler (option error) :=
  log E_parseClaimsFromToken ;;
  put_claims (fst (claimsFromToken W)) ;;
  ret (snd (claimsFromToken W)).

Definition getGroupAddr : Handler (list string * option error) :=
  log E_getGroupAddr ;;
  ret (GroupAddr W).

Definition isSuper : Handler bool := ret (IsSuper W).

Definition pubEvent (subject : string) (kind : EventKind) (addr : string)
    (payload : Payload) : Handler unit :=
  log (E_pubEvent subject kind addr payload).

Definition SetUsed : Handler unit := log E_SetUsed.

Definition DB_Find_events (q : Query) : Handler (list EventRow.t * option error) :=
  log (E_db q) ;; ret (db_Find_events W q).

Definition DB_Find_history (q : Query) : Handler (list JobHistory.t * option error) :=
  log (E_db q) ;; ret (db_Find_history W q).

Definition DB_Take (q : Query) : Handler (models.User * option error * int64) :=
  log (E_db q) ;; ret (db_Take W q).

Definition User_Create (u : models.User) : Handler (models.User * option error) :=
  log (E_db (Create_user u)) ;; ret (db_Create W u).

Definition DB_Save (g : Group.t) : Handler (Group.t * option error) :=
  log (E_db (Save_group g)) ;; ret (db_Save W g).

Definition User_SetGroup (u : models.User) : Handler (models.User * option error) :=
  log (E_db (SetGroup_user u)) ;; ret (db_SetGroup W u).

Definition DB_Scan (q : Query) : Handler (AuditNumStat * option error) :=
  log (E_db q) ;; ret (db_Scan W q).

(** [fmt.Sprintf("created_at %s", orderby)]. *)
Definition order_by (orderby : string) : string := ("created_at " ++ orderby)%string.

(** *** GetActivityList (user.go, lines 72-111) *)
Definition GetActivityList : Handler unit :=
  let (reqBody, err) := verify_ReadMore W in
  if_err err (fun e => respError (Error e) None ;; Return) ;;
  err <- parseClaimsFromToken ;;
  if_err err (fun e => respBasicError e ;; Return) ;;
  c <- get_claims ;;
  r <- (if (ReadMoreReqParams.LastID reqBody =? 0)%Z
        then DB_Find_events
               (Find_events (UserID c) None
                  (order_by (ReadMoreReqParams.Orderby reqBody))
                  (ReadMoreReqParams.Pagesize reqBody))
        else DB_Find_events
               (Find_events (UserID c) (Some (ReadMoreReqParams.LastID reqBody))
                  (order_by (ReadMoreReqParams.Orderby reqBody))
                  (ReadMoreReqParams.Pagesize reqBody))) ;;
  let (events, err) := r in
  if_err_not_ErrNoRows err (fun e => respDBError e ;; Return) ;;
  respSucc "" (data_events events (ReadMoreReqParams.Pagesize reqBody)).

(** *** GetJobHistory (user.go, lines 113-153) *)
Definition GetJobHistory : Handler unit :=
  let (reqBody, err) := verify_ReadMore W in
  if_err err (fun e => respError (Error e) None ;; Return) ;;
  r <- getGroupAddr ;;
  let (addrs, err) := r in
  if_err err (fun e => respError (Error e) (Some e) ;; Return) ;;
  r <- (if (ReadMoreReqParams.LastID reqBody =? 0)%Z
        then DB_Find_history
               (Find_history addrs None
                  (order_by (ReadMoreReqParams.Orderby reqBody))
                  (ReadMoreReqParams.Pagesize reqBody))
        else DB_Find_history
               (Find_history addrs (Some (ReadMoreReqParams.LastID reqBody))
                  (order_by (ReadMoreReqParams.Orderby reqBody))
                  (ReadMoreReqParams.Pagesize reqBody))) ;;
  let (historys, err) := r in
  if_err_not_ErrNoRows err (fun e => respDBError e ;; Return) ;;
  respSucc "" (data_history historys (ReadMoreReqParams.Pagesize reqBody)).

(** *** IninAdminUser (user.go, lines 209-240) *)
Definition IninAdminUser : Handler unit :=
  let (reqBody, err) := Valid_User W in
  if_err err (fun e => respParamError e ;; Return) ;;
  ret_ <- DB_Take (Take_user 1%N) ;;
  let '(user, ret_Error, ret_RowsAffected) := ret_ in
  when (is_nil ret_Error && (0 <? ret_RowsAffected)%Z) (respNotAllowed ;; Return) ;;
  let user := user_with_Username (UserReqParams.Username reqBody) user in
  let user := user_with_Passwd (UserReqParams.Passwd reqBody) user in
  let user := user_with_Root true user in
  let user := user_with_GroupID (SuperGroup_ID W) user in
  let user := user_with_Mail (UserReqParams.Mail reqBody) user in
  r <- User_Create user ;;
  let (user, err) := r in
  if_err err (fun e => respError (Error e) None ;; Return) ;;
  SetUsed ;;
  respSucc "" data_true.

(** *** Signup (user.go, lines 243-274) *)
Definition Signup : Handler unit :=
  let user := models.zeroUser in
  let (reqBody, err) := Valid_User W in
  if_err err (fun e => respParamError e ;; Return) ;;
  ok <- isSuper ;;
  when (negb ok) (respNotAllowed ;; Return) ;;
  let user := user_with_Username (UserReqParams.Username reqBody) user in
  let user := user_with_Passwd (UserReqParams.Passwd reqBody) user in
  let user := user_with_GroupID (UserReqParams.GroupID reqBody) user in
  let user := user_with_Root (UserReqParams.Root reqBody) user in
  let user := user_with_Mail (UserReqParams.Mail reqBody) user in
  r <- User_Create user ;;
  let (user, err) := r in
  if_err err (fun e => respDBError e ;; Return) ;;
  pubEvent (models.Username user) event_SignUpUser "" (payload_User reqBody) ;;
  respSucc "" data_true.

(** *** UserStat (user.go, lines 277-313) *)
Definition UserStat : Handler unit :=
  err <- parseClaimsFromToken ;;
  if_err err (fun e => respJWTError e ;; Return) ;;
  c <- get_claims ;;
  r <- DB_Scan (Scan_stat (GroupID c)) ;;
  let (auditNumStat, err) := r in
  if_err err (fun e => respDBError e ;; Return) ;;
  respSucc "" (data_stat (SystemInfo W) auditNumStat).

(** *** GroupUser (user.go, lines 316-354) *)
Definition GroupUser : Handler unit :=
  let user := models.zeroUser in
  let (reqBody, err) := Valid_SetGroup W in
  if_err err (fun e => respBasicError e ;; Return) ;;
  ok <- isSuper ;;
  when (negb ok) (respNotAllowed ;; Return) ;;
  reqBody <-
    (if negb (SetGroupReqParams.TargetGroupName reqBody =? "")%string
     then
       let group := Group.mk 0%N (SetGroupReqParams.TargetGroupName reqBody) in
       r <- DB_Save group ;;
       let (group, err) := r in
       if_err err (fun e => respDBError e ;; Return) ;;
       ret (SetGroupReqParams.set_TargetGroupID (Group.ID group) reqBody)
     else ret reqBody) ;;
  let user := user_with_ID (SetGroupReqParams.UserID reqBody) user in
  let user := user_with_GroupID (SetGroupReqParams.TargetGroupID reqBody) user in
  let user := user_with_Root (SetGroupReqParams.Root reqBody) user in
  r <- User_SetGroup user ;;
  let (user, err) := r in
  if_err err (fun e => respDBError e ;; Return) ;;
  pubEvent (models.Username user) event_GroupUser "" (payload_SetGroup reqBody) ;;
  respSucc "" data_nil.

End Handlers.

End Mgmt.

(** ** A small installation for the other handlers *)

Module MgmtDemo.
Definition events : list Mgmt.EventRow.t :=
  [ Mgmt.EventRow.mk 31 2 "backup"; Mgmt.EventRow.mk 30 1 "carol";
    Mgmt.EventRow.mk 29 2 "cleanup" ]%N.

Definition find_events (q : Mgmt.Query) : list Mgmt.EventRow.t * option error :=
  match q with
  | Mgmt.Find_events uid below _ limit =>
      (firstn (Z.to_nat limit)
         (filter (fun e =>
                    (Mgmt.EventRow.UserID e =? uid)%N
                    && match below with
                       | Some b => (Z.of_N (Mgmt.EventRow.ID e) <? b)%Z
                       | None => true
                       end) events), None)
  | _ => ([], Some (errors_New "not an event query"))
  end.

Definition stat : Mgmt.AuditNumStat := Mgmt.mkAuditNumStat 3%N 1%N 0%N 2%N 1%N.

(** An installation by what varies between the runs below: whether the
    caller is in the Super Group, what the look-up of [IninAdminUser]
    finds, the errors of the writes and of the scan, the body of
    [GroupUser], and the last id of the list requests. *)
Definition make (super : bool) (taken : models.User * option error * int64)
    (create_err save_err setgroup_err scan_err : option error)
    (setGroup : Mgmt.SetGroupReqParams.t) (lastID : int64) : Mgmt.World := {|
  Mgmt.SuperGroup_ID := 1%N;
  Mgmt.SystemInfo := "up 3 days";
  Mgmt.verify_ReadMore := (Mgmt.ReadMoreReqParams.mk lastID 20%Z "desc", None);
  Mgmt.claimsFromToken := (Demo.alice, None);
  Mgmt.GroupAddr := (["10.0.0.7:20001"], None);
  Mgmt.IsSuper := super;
  Mgmt.Valid_User :=
    (Mgmt.UserReqParams.mk "carol" "pa55" 7%N true "carol@example.org", None);
  Mgmt.Valid_SetGroup := (setGroup, None);
  Mgmt.db_Find_events := find_events;
  Mgmt.db_Find_history := fun _ => ([Mgmt.JobHistory.mk 8%N "10.0.0.7:20001" "backup"], None);
  Mgmt.db_Take := fun _ => taken;
  Mgmt.db_Create := fun u => (Mgmt.user_with_ID 4%N u, create_err);
  Mgmt.db_Save := fun g => (Mgmt.Group.mk 12%N (Mgmt.Group.Name g), save_err);
  Mgmt.db_SetGroup := fun u => (u, setgroup_err);
  Mgmt.db_Scan := fun _ => (stat, scan_err)
|}.

Definition not_found : models.User * option error * int64 :=
  (models.zeroUser, Some (errors_New "record not found"), 0%Z).

Definition move_alice : Mgmt.SetGroupReqParams.t :=
  Mgmt.SetGroupReqParams.mk 9%N "" 2%N false.

Definition move_alice_to_new : Mgmt.SetGroupReqParams.t :=
  Mgmt.SetGroupReqParams.mk 9%N "ops" 2%N true.

(** A fresh installation, used by a member of the Super Group. *)
Definition W : Mgmt.World := make true not_found None None None None move_alice 0%Z.

(** The same requests from a caller outside the Super Group. *)
Definition W_not_super : Mgmt.World :=
  make false not_found None None None None move_alice 0%Z.

(** The administrator exists already. *)
Definition W_initialised : Mgmt.World :=
  make true (nth 0 Demo.users models.zeroUser, None, 1%Z)
    None None None None move_alice 0%Z.

(** The look-up of the administrator fails. *)
Definition W_lookup_down : Mgmt.World :=
  make true (models.zeroUser, Some (errors_New "connection lost"), 0%Z)
    None None None None move_alice 0%Z.

(** The user cannot be created. *)
Definition W_create_fails : Mgmt.World :=
  make true not_found (Some (errors_New "duplicate entry")) None None None move_alice 0%Z.

(** alice is moved to a group created on the way; and the same when moving
    her fails after the group was saved. *)
Definition W_new_group : Mgmt.World :=
  make true not_found None None None None move_alice_to_new 0%Z.
Definition W_new_group_move_fails : Mgmt.World :=
  make true not_found None None (Some (errors_New "no such user")) None
    move_alice_to_new 0%Z.

(** The scan of [UserStat] finds no row. *)
Definition W_scan_no_rows : Mgmt.World :=
  make true not_found None None None (Some sql_ErrNoRows) move_alice 0%Z.

(** The list requests continue below id 31. *)
Definition W_more : Mgmt.World :=
  make true not_found None None None None move_alice 31%Z.

End MgmtDemo.

(** * Properties *)

(** ** Arithmetic, time and strings *)





Lemma append_nil_r (s : string) : (s ++ "")%string = s.
Proof. induction s as [|a s IH]; simpl; [reflexivity | now rewrite IH]. Qed.

Lemma append_assoc (a b c : string) : ((a ++ b) ++ c = a ++ b ++ c)%string.
Proof. induction a as [|ch a IH]; simpl; [reflexivity | now rewrite IH]. Qed.

Lemma Join_fold (sep : string) (rest : list string) :
  forall s,
    fold_left (fun b x => (b ++ sep ++ x)%string) rest s
    = (s ++ fold_right (fun x b => (sep ++ x ++ b)%string) "" rest)%string.
Proof.
  induction rest as [|x rest IH]; intros s; simpl.
  - now rewrite append_nil_r.
  - now rewrite IH, !append_assoc.
Qed.

(** [strings.Join] is the concatenation with a separator of the standard
    library. *)
Lemma Join_concat (sep : string) (elems : list string) :
  strings.Join elems sep = String.concat sep elems.
Proof.
  destruct elems as [|s rest]; [reflexivity|].
  unfold strings.Join. rewrite Join_fold.
  revert s. induction rest as [|x rest IH]; intros s.
  - apply append_nil_r.
  - change (String.concat sep (s :: x :: rest))
      with (s ++ sep ++ String.concat sep (x :: rest))%string.
    rewrite <- IH. reflexivity.
Qed.

(** The [for ... range reply] loops collect the names in order. *)
Lemma collect_names {A} (f : A -> string) (reply : list A) :
  forall names,
    fold_left (fun names v => names ++ [f v]) reply names = names ++ map f reply.
Proof.
  induction reply as [|v reply IH]; intros names; simpl.
  - now rewrite app_nil_r.
  - rewrite IH, <- app_assoc. reflexivity.
Qed.

(** Symbolic execution of a handler: unfold the computation, and whenever
    it waits for the answer of a collaborator, use the hypothesis that
    gives the answer, or else consider every answer. *)
Ltac run_handler :=
  unfold run, wrapCtx, Login, AuditJob, GetUserList.

Ltac step_handler :=
  cbv beta iota zeta delta
      [bind ret Return log when if_err if_err_not_ErrNoRows get_claims put_claims
       respParamError respAuthFailed respBasicError respJWTError respDBError
       respRPCError respNotAllowed respSucc parseClaimsFromToken
       verifyNodePermission pubEvent Now rpcCall_crontab rpcCall_daemon
       jwt_SignedString DB_Count DB_Find is_ErrNoRows
       set_Valid_Login set_verify_AuditJob set_rpcCall_CrontabJob
       set_store_Append set_Valid_GetUsers set_claimsFromToken
       GetUsersParams.set_QueryGroupID
       claims trace store ticks fst snd negb andb orb];
  cbn [app responses rpcCalls rpcCalled pubEvents filter flat_map
       is_rpcCall is_pubEvent
       cfg_Jwt_Expires cfg_Jwt_SigningKey SuperGroup_ID time_Now Valid_Login
       User_Verify SignedString verify_AuditJob VerifyUserGroup
       rpcCall_CrontabJob rpcCall_DaemonJob store_Append Valid_GetUsers
       claimsFromToken db_Count db_Find
       GetUsersParams.IsAll GetUsersParams.QueryGroupID GetUsersParams.Page
       GetUsersParams.Pagesize].

Ltac answer :=
  match goal with
  | |- context [match ?x with _ => _ end] =>
      lazymatch x with
      | context [match _ with _ => _ end] => fail
      | _ => first [ match goal with H : x = _ |- _ => rewrite H end
                   | destruct x eqn:? ]
      end
  end.

Ltac exec := run_handler; step_handler; repeat (answer; step_handler).

(** ** AuditJob *)

(** C1. A request to [AuditJob] whose caller fails
    [ctx.verifyNodePermission(reqBody.Addr)] is answered with
    [respNotAllowed] and nothing else happens: no remote call is issued, no
    event is published, and the audit-trail store is left as it was.  (The
    check is reached when [reqBody.verify] returns no error; when it
    returns one, the handler has no side effect either.) *)
Theorem AuditJob_no_node_permission :
  forall (W : Collab) (st0 : list Event) reqBody c err,
    verify_AuditJob W = (reqBody, c, err) ->
    VerifyUserGroup W c (AuditJobReqParams.Addr reqBody) = false ->
    let s := run (AuditJob W) st0 in
    rpcCalls (trace s) = [] /\
    pubEvents (trace s) = [] /\
    store s = st0 /\
    (err = None -> trace s = [E_resp NotAllowed]).
Proof.
  intros W st0 reqBody c err Hv Hp. cbv zeta. exec; repeat split; discriminate.
Qed.

Lemma AuditJob_no_node_permission_witness :
  verify_AuditJob Demo.W_alice_foreign
  = (Demo.audit "10.0.0.9:20001" "crontab", Demo.alice, None) /\
  VerifyUserGroup Demo.W_alice_foreign Demo.alice "10.0.0.9:20001" = false /\
  trace (run (AuditJob Demo.W_alice_foreign) []) = [E_resp NotAllowed].
Proof.
  split; [reflexivity|]. split; [reflexivity|].
  destruct (AuditJob_no_node_permission Demo.W_alice_foreign []
              (Demo.audit "10.0.0.9:20001" "crontab") Demo.alice None
              eq_refl eq_refl) as (_ & _ & _ & H).
  exact (H eq_refl).
Defined.

(** C2. Whenever the remote call issued by [AuditJob] ([CrontabJob.Audit]
    or [DaemonJob.Audit]) returns an error, the handler answers with
    [respRPCError] of that error and publishes no event: [ctx.pubEvent] is
    not called and the audit-trail store is unchanged. *)
Theorem AuditJob_rpc_error_no_event :
  forall (W : Collab) (st0 : list Event) addr method args e,
    let s := run (AuditJob W) st0 in
    In (E_rpcCall addr method args (Some e)) (trace s) ->
    responses (trace s) = [RPCError e] /\
    pubEvents (trace s) = [] /\
    store s = st0.
Proof.
  intros W st0 addr method args e. cbv zeta.
  exec; simpl; intros H;
    repeat match goal with
           | H : _ \/ _ |- _ => destruct H as [H|H]
           | H : False |- _ => destruct H
           | H : E_rpcCall _ _ _ _ = E_rpcCall _ _ _ _ |- _ => inversion H; subst; clear H
           | H : _ = _ |- _ => discriminate H
           end;
    repeat split.
Qed.

Lemma AuditJob_rpc_error_no_event_witness :
  In (E_rpcCall "10.0.0.7:20001" "CrontabJob.Audit" (proto.mkAuditJobArgs [1; 2]%N)
        (Some (errors_New "connection refused")))
     (trace (run (AuditJob Demo.W_rpc_down) [])) /\
  responses (trace (run (AuditJob Demo.W_rpc_down) []))
  = [RPCError (errors_New "connection refused")] /\
  pubEvents (trace (run (AuditJob Demo.W_rpc_down) [])) = [] /\
  store (run (AuditJob Demo.W_rpc_down) []) = [].
Proof.
  assert (H : In (E_rpcCall "10.0.0.7:20001" "CrontabJob.Audit"
                    (proto.mkAuditJobArgs [1; 2]%N)
                    (Some (errors_New "connection refused")))
                 (trace (run (AuditJob Demo.W_rpc_down) []))).
  { left. reflexivity. }
  split; [exact H|].
  exact (AuditJob_rpc_error_no_event Demo.W_rpc_down [] _ _ _ _ H).
Defined.

(** C10. A request to [AuditJob] that passes [reqBody.verify], the node
    permission check and the privilege check issues exactly one remote
    call, to the request's address with the request's job IDs: method
    ["CrontabJob.Audit"] when [JobType] is ["crontab"], and
    ["DaemonJob.Audit"] for every other [JobType]. *)
Theorem AuditJob_one_remote_call :
  forall (W : Collab) (st0 : list Event) reqBody c,
    verify_AuditJob W = (reqBody, c, None) ->
    VerifyUserGroup W c (AuditJobReqParams.Addr reqBody) = true ->
    GroupID c = SuperGroup_ID W \/ Root c = true ->
    rpcCalled (trace (run (AuditJob W) st0))
    = [(AuditJobReqParams.Addr reqBody,
        if (AuditJobReqParams.JobType reqBody =? "crontab")%string
        then "CrontabJob.Audit" else "DaemonJob.Audit",
        AuditJobReqParams.JobIDs reqBody)].
Proof.
  intros W st0 reqBody c Hv Hp Hpriv.
  assert (Hg : (GroupID c =? SuperGroup_ID W)%N = true \/ Root c = true).
  { destruct Hpriv as [-> | ->]; [left; apply N.eqb_refl | now right]. }
  exec; try reflexivity; destruct Hg; congruence.
Qed.

Lemma AuditJob_one_remote_call_witness :
  rpcCalled (trace (run (AuditJob Demo.W_bob_daemon) []))
  = [("10.0.0.7:20001", "DaemonJob.Audit", [1; 2]%N)].
Proof.
  apply (AuditJob_one_remote_call Demo.W_bob_daemon []
           (Demo.audit "10.0.0.7:20001" "daemon") Demo.bob).
  - reflexivity.
  - reflexivity.
  - right. reflexivity.
Defined.

(** C3, as stated, fails.  alice belongs to group 7, which owns the node
    10.0.0.7:20001, so she satisfies [OwnsNode] and passes
    [ctx.verifyNodePermission]; she is neither in the Super Group nor root,
    and the test of line 172 rejects her: [respNotAllowed], no dispatch. *)
Lemma AuditJob_owner_without_privilege_rejected :
  verify_AuditJob Demo.W_alice_own
  = (Demo.audit "10.0.0.7:20001" "crontab", Demo.alice, None) /\
  VerifyUserGroup Demo.W_alice_own = Guard.OwnsNode (SuperGroup_ID Demo.W_alice_own) Demo.nodes /\
  Guard.OwnsNode (SuperGroup_ID Demo.W_alice_own) Demo.nodes Demo.alice "10.0.0.7:20001" = true /\
  trace (run (AuditJob Demo.W_alice_own) []) = [E_resp NotAllowed] /\
  rpcCalled (trace (run (AuditJob Demo.W_alice_own) [])) = [].
Proof. repeat split. Qed.

(** C3, amended.  Passing the node-permission check is necessary but not
    sufficient for the dispatch: a verified request whose caller passes
    [ctx.verifyNodePermission] is dispatched (one remote call) exactly when
    the caller is in the Super Group or has [Root]; otherwise the handler
    answers [respNotAllowed] and does nothing else. *)
Theorem AuditJob_dispatch_needs_privilege :
  forall (W : Collab) (st0 : list Event) reqBody c,
    verify_AuditJob W = (reqBody, c, None) ->
    VerifyUserGroup W c (AuditJobReqParams.Addr reqBody) = true ->
    let s := run (AuditJob W) st0 in
    (GroupID c = SuperGroup_ID W \/ Root c = true ->
     length (rpcCalled (trace s)) = 1) /\
    (GroupID c <> SuperGroup_ID W /\ Root c = false ->
     trace s = [E_resp NotAllowed] /\ store s = st0).
Proof.
  intros W st0 reqBody c Hv Hp. cbv zeta. split.
  - intros Hpriv.
    assert (Hg : (GroupID c =? SuperGroup_ID W)%N = true \/ Root c = true).
    { destruct Hpriv as [-> | ->]; [left; apply N.eqb_refl | now right]. }
    exec; try reflexivity; destruct Hg; congruence.
  - intros [Hg Hr]. apply N.eqb_neq in Hg. exec. split; reflexivity.
Qed.

Lemma AuditJob_dispatch_needs_privilege_witness :
  length (rpcCalled (trace (run (AuditJob Demo.W_bob_daemon) []))) = 1 /\
  trace (run (AuditJob Demo.W_alice_own) []) = [E_resp NotAllowed].
Proof.
  split.
  - apply (AuditJob_dispatch_needs_privilege Demo.W_bob_daemon []
             (Demo.audit "10.0.0.7:20001" "daemon") Demo.bob eq_refl eq_refl).
    right. reflexivity.
  - apply (AuditJob_dispatch_needs_privilege Demo.W_alice_own []
             (Demo.audit "10.0.0.7:20001" "crontab") Demo.alice eq_refl eq_refl).
    split; [discriminate | reflexivity].
Defined.

(** C5. When the dispatch of [AuditJob] succeeds, the event published has
    as subject the names of the job records of the reply, in the order of
    the reply, joined with [","]: [String.concat "," (map Name reply)], for
    crontab jobs and for daemon jobs alike. *)
Theorem AuditJob_event_subject :
  forall (W : Collab) (st0 : list Event) reqBody c,
    verify_AuditJob W = (reqBody, c, None) ->
    VerifyUserGroup W c (AuditJobReqParams.Addr reqBody) = true ->
    GroupID c = SuperGroup_ID W \/ Root c = true ->
    let s := run (AuditJob W) st0 in
    let addr := AuditJobReqParams.Addr reqBody in
    let args := proto.mkAuditJobArgs (AuditJobReqParams.JobIDs reqBody) in
    (forall reply,
        AuditJobReqParams.JobType reqBody = "crontab" ->
        rpcCall_CrontabJob W addr "CrontabJob.Audit" args = (reply, None) ->
        pubEvents (trace s)
        = [E_pubEvent (String.concat "," (map models.CrontabJob.Name reply))
             event_AuditCrontabJob addr reqBody]) /\
    (forall reply,
        AuditJobReqParams.JobType reqBody <> "crontab" ->
        rpcCall_DaemonJob W addr "DaemonJob.Audit" args = (reply, None) ->
        pubEvents (trace s)
        = [E_pubEvent (String.concat "," (map models.DaemonJob.Name reply))
             event_AuditDaemonJob addr reqBody]).
Proof.
  intros W st0 reqBody c Hv Hp Hpriv. cbv zeta.
  assert (Hg : (GroupID c =? SuperGroup_ID W)%N = true \/ Root c = true).
  { destruct Hpriv as [-> | ->]; [left; apply N.eqb_refl | now right]. }
  split; intros reply Ht Hr.
  - apply String.eqb_eq in Ht.
    exec; try (destruct Hg; congruence);
      now rewrite collect_names, Join_concat.
  - apply String.eqb_neq in Ht.
    exec; try (destruct Hg; congruence);
      now rewrite collect_names, Join_concat.
Qed.

Lemma AuditJob_event_subject_witness :
  pubEvents (trace (run (AuditJob Demo.W) []))
  = [E_pubEvent "backup,cleanup" event_AuditCrontabJob "10.0.0.7:20001"
       (Demo.audit "10.0.0.7:20001" "crontab")].
Proof.
  apply (proj1 (AuditJob_event_subject Demo.W []
                  (Demo.audit "10.0.0.7:20001" "crontab") Demo.admin
                  eq_refl eq_refl (or_introl eq_refl))
           [models.CrontabJob.mk 1%N "backup"; models.CrontabJob.mk 2%N "cleanup"]
           eq_refl eq_refl).
Defined.

(** What [AuditJob] does never depends on the audit-trail store. *)
Lemma AuditJob_trace_set_store_Append (W : Collab) (st0 : list Event) (f : Event -> bool) :
  trace (run (AuditJob (set_store_Append f W)) st0) = trace (run (AuditJob W) st0).
Proof.
  exec; reflexivity.
Qed.

Lemma AuditJob_dispatched_trace (W : Collab) (st0 : list Event) addr method args :
  let s := run (AuditJob W) st0 in
  In (E_rpcCall addr method args None) (trace s) ->
  exists subject kind payload,
    trace s = [E_rpcCall addr method args None;
               E_pubEvent subject kind addr payload;
               E_resp (Succ "" data_nil)].
Proof.
  cbv zeta. exec; simpl; intros H;
    repeat match goal with
           | H : _ \/ _ |- _ => destruct H as [H|H]
           | H : False |- _ => destruct H
           | H : E_rpcCall _ _ _ _ = E_rpcCall _ _ _ _ |- _ => inversion H; subst; clear H
           | H : _ = _ |- _ => discriminate H
           end;
    do 3 eexists; reflexivity.
Qed.

Lemma AuditJob_store_refuses (W : Collab) (st0 : list Event) :
  (forall ev, store_Append W ev = false) -> store (run (AuditJob W) st0) = st0.
Proof.
  intros Hf. exec; try reflexivity;
    match goal with
    | H : store_Append W ?ev = true |- _ => rewrite Hf in H; discriminate H
    end.
Qed.

(** C8. Once the remote dispatch of an [AuditJob] request has succeeded,
    the handler publishes the event and then answers [respSucc], whatever
    the audit-trail store does with the event: for every behaviour [f] of
    the store the trace is the remote call, the publication, the success
    response; also when the store refuses every event and records
    nothing. *)
Theorem AuditJob_success_whatever_store :
  forall (W : Collab) (st0 : list Event) addr method args (f : Event -> bool),
    In (E_rpcCall addr method args None) (trace (run (AuditJob W) st0)) ->
    let s := run (AuditJob (set_store_Append f W)) st0 in
    (exists subject kind payload,
        trace s = [E_rpcCall addr method args None;
                   E_pubEvent subject kind addr payload;
                   E_resp (Succ "" data_nil)]) /\
    responses (trace s) = [Succ "" data_nil] /\
    ((forall ev, f ev = false) -> store s = st0).
Proof.
  intros W st0 addr method args f H. cbv zeta.
  rewrite <- (AuditJob_trace_set_store_Append W st0 f) in H.
  destruct (AuditJob_dispatched_trace _ _ _ _ _ H) as (subject & kind & payload & E).
  split; [now exists subject, kind, payload|].
  split; [now rewrite E|].
  intros Hf. now apply AuditJob_store_refuses.
Qed.

Lemma AuditJob_success_whatever_store_witness :
  In (E_rpcCall "10.0.0.7:20001" "CrontabJob.Audit" (proto.mkAuditJobArgs [1; 2]%N) None)
     (trace (run (AuditJob Demo.W) [])) /\
  responses (trace (run (AuditJob Demo.W_store_down) [])) = [Succ "" data_nil] /\
  store (run (AuditJob Demo.W_store_down) []) = [].
Proof.
  assert (H : In (E_rpcCall "10.0.0.7:20001" "CrontabJob.Audit"
                    (proto.mkAuditJobArgs [1; 2]%N) None)
                 (trace (run (AuditJob Demo.W) []))).
  { left. reflexivity. }
  split; [exact H|].
  destruct (AuditJob_success_whatever_store Demo.W [] _ _ _ (fun _ => false) H)
    as (_ & Hr & Hs).
  split; [exact Hr | exact (Hs (fun _ => eq_refl))].
Defined.

(** ** Login *)

(** C6. Two logins whose credentials [user.Verify] rejects get the same
    answer, whatever the reason of the rejection and whatever user record
    the verification loaded: a single [respAuthFailed] carrying the same
    error.  Nothing of what the handler does tells an unknown username from
    a wrong password. *)
Theorem Login_failure_indistinguishable :
  forall (W1 W2 : Collab) (st1 st2 : list Event) body1 body2 user1 user2,
    Valid_Login W1 = (body1, None) ->
    Valid_Login W2 = (body2, None) ->
    User_Verify W1 (LoginReqParams.Username body1) (LoginReqParams.Passwd body1)
    = (false, user1) ->
    User_Verify W2 (LoginReqParams.Username body2) (LoginReqParams.Passwd body2)
    = (false, user2) ->
    trace (run (Login W1) st1) = trace (run (Login W2) st2) /\
    trace (run (Login W1) st1)
    = [E_resp (AuthFailed (errors_New "帐号或密码不正确"))].
Proof.
  intros W1 W2 st1 st2 body1 body2 user1 user2 Hb1 Hb2 Hv1 Hv2.
  exec. split; reflexivity.
Qed.

Lemma Login_failure_indistinguishable_witness :
  Credentials.FindByUsername Demo.users "mallory" = None /\
  Credentials.FindByUsername Demo.users "admin" <> None /\
  trace (run (Login Demo.W_login_unknown) [])
  = trace (run (Login Demo.W_login_wrong) []).
Proof.
  split; [reflexivity|]. split; [discriminate|].
  apply (Login_failure_indistinguishable Demo.W_login_unknown Demo.W_login_wrong [] []
           (LoginReqParams.mk "mallory" "s3cret" false)
           (LoginReqParams.mk "admin" "guess" false)
           models.zeroUser
           (models.mkUser 1%N "admin" "s3cret" "admin@example.org" 1%N true));
    reflexivity.
Defined.



(** ** GetUserList *)

(** C4, as stated, fails.  bob has [Root = true] and belongs to group 7,
    not to the Super Group (1); his token is valid and his request is
    valid with [IsAll = true]; the test of line 376 looks at the group
    only and answers [respNotAllowed]. *)
Lemma GetUserList_root_outside_super_group_rejected :
  Valid_GetUsers Demo.W_bob_all = (GetUsersParams.mk true 0%N 1%Z 20%Z, None) /\
  claimsFromToken Demo.W_bob_all = (Demo.bob, None) /\
  Root Demo.bob = true /\
  GroupID Demo.bob <> SuperGroup_ID Demo.W_bob_all /\
  trace (run (GetUserList Demo.W_bob_all) []) = [E_parseClaimsFromToken; E_resp NotAllowed].
Proof. repeat split. discriminate. Qed.

(** C4, amended.  For verified claims, [GetUserList] with [IsAll = true]
    is authorized exactly when the caller's [GroupID] is the Super Group's:
    then no [respNotAllowed] is written and the users are counted; for any
    other group the handler answers [respNotAllowed] and makes no query.
    [Root] plays no part. *)
Theorem GetUserList_all_needs_super_group :
  forall (W : Collab) (st0 : list Event) body err c,
    Valid_GetUsers W = (body, err) ->
    GetUsersParams.IsAll body = true ->
    claimsFromToken W = (c, None) ->
    let s := run (GetUserList W) st0 in
    (GroupID c = SuperGroup_ID W ->
     ~ In NotAllowed (responses (trace s)) /\
     In (E_db (Count_users None)) (trace s)) /\
    (GroupID c <> SuperGroup_ID W ->
     In NotAllowed (responses (trace s)) /\
     forall q, ~ In (E_db q) (trace s)).
Proof.
  intros W st0 body err c Hb Hall Hc. cbv zeta. split; intros Hg.
  - apply N.eqb_eq in Hg.
    exec; simpl; (split; [intuition discriminate | tauto]).
  - apply N.eqb_neq in Hg.
    exec; simpl; (split; [tauto | intros q; intuition discriminate]).
Qed.

Lemma GetUserList_all_needs_super_group_witness :
  (~ In NotAllowed (responses (trace (run (GetUserList Demo.W) []))) /\
   In (E_db (Count_users None)) (trace (run (GetUserList Demo.W) []))) /\
  In NotAllowed (responses (trace (run (GetUserList Demo.W_bob_all) []))).
Proof.
  split.
  - apply (GetUserList_all_needs_super_group Demo.W []
             (GetUsersParams.mk true 0%N 1%Z 20%Z) None Demo.admin
             eq_refl eq_refl eq_refl).
    reflexivity.
  - apply (GetUserList_all_needs_super_group Demo.W_bob_all []
             (GetUsersParams.mk true 0%N 1%Z 20%Z) None Demo.bob
             eq_refl eq_refl eq_refl).
    discriminate.
Defined.

(** C9. When the body of a [GetUserList] request fails validation, the
    handler writes the parameter error and goes on: from there it does
    exactly what it does for the same body when validation passes.  It
    parses the claims, and when they are valid and the authorization tests
    pass it queries the database. *)
Theorem GetUserList_continues_after_param_error :
  forall (W : Collab) (st0 : list Event) body e,
    Valid_GetUsers W = (body, Some e) ->
    let s := run (GetUserList W) st0 in
    let s' := run (GetUserList (set_Valid_GetUsers (body, None) W)) st0 in
    trace s = E_resp (ParamError e) :: trace s' /\
    (exists rest, trace s = E_resp (ParamError e) :: E_parseClaimsFromToken :: rest) /\
    (forall c,
        claimsFromToken W = (c, None) ->
        (GetUsersParams.IsAll body = true -> GroupID c = SuperGroup_ID W) ->
        (GetUsersParams.IsAll body = false ->
         GetUsersParams.QueryGroupID body = GroupID c \/ GroupID c = SuperGroup_ID W) ->
        exists q rest,
          trace s = E_resp (ParamError e) :: E_parseClaimsFromToken :: E_db q :: rest).
Proof.
  intros W st0 body e Hb. cbv zeta. repeat split.
  - exec; reflexivity.
  - exec; eexists; reflexivity.
  - intros c Hc Hall Hgrp.
    exec; try (do 2 eexists; reflexivity); exfalso;
      repeat match goal with
             | H : (_ =? _)%N = false |- _ => apply N.eqb_neq in H
             end;
      first [ specialize (Hall eq_refl); congruence
            | destruct (Hgrp eq_refl); congruence ].
Qed.

Lemma GetUserList_continues_after_param_error_witness :
  trace (run (GetUserList Demo.W_list_invalid) [])
  = [E_resp (ParamError (errors_New "pagesize"));
     E_parseClaimsFromToken;
     E_db (Count_users None);
     E_db (Find_users None None 0%Z);
     E_resp (Succ "" (data_userList [] 3%Z 0%Z 0%Z))].
Proof.
  destruct (GetUserList_continues_after_param_error Demo.W_list_invalid []
              (GetUsersParams.mk true 0%N 0%Z 0%Z) (errors_New "pagesize") eq_refl)
    as (H & _ & _).
  rewrite H. reflexivity.
Defined.

(** * Further properties of the handlers *)

Ltac split_In :=
  repeat match goal with
         | H : _ \/ _ |- _ => destruct H as [H|H]
         | H : False |- _ => destruct H
         | H : In _ [] |- _ => destruct H
         | H : E_resp _ = E_resp _ |- _ => inversion H; subst; clear H
         | H : E_rpcCall _ _ _ _ = E_rpcCall _ _ _ _ |- _ => inversion H; subst; clear H
         | H : E_pubEvent _ _ _ _ = E_pubEvent _ _ _ _ |- _ => inversion H; subst; clear H
         | H : E_SignedString _ _ = E_SignedString _ _ |- _ => inversion H; subst; clear H
         | H : E_db _ = E_db _ |- _ => inversion H; subst; clear H
         | H : @eq Effect _ _ |- _ => discriminate H
         end.

(** ** Login, further *)

(** X1. [Login] signs a token only for a body that passed validation and
    credentials that [user.Verify] accepted, and only with the configured
    signing key. *)
Theorem Login_signs_only_verified :
  forall (W : Collab) (st0 : list Event) c key,
    In (E_SignedString c key) (trace (run (Login W) st0)) ->
    let reqBody := fst (Valid_Login W) in
    snd (Valid_Login W) = None /\
    fst (User_Verify W (LoginReqParams.Username reqBody)
           (LoginReqParams.Passwd reqBody)) = true /\
    key = cfg_Jwt_SigningKey W.
Proof.
  intros W st0 c key. cbv zeta.
  exec; cbn [In]; intros H; split_In; repeat split.
Qed.

Lemma Login_signs_only_verified_witness :
  In (E_SignedString (set_ExpiresAt 1700003600%Z Demo.admin) "signing-key")
     (trace (run (Login Demo.W) [])) /\
  User_Verify Demo.W "admin" "s3cret" = (true, nth 0 Demo.users models.zeroUser).
Proof.
  assert (H : In (E_SignedString (set_ExpiresAt 1700003600%Z Demo.admin) "signing-key")
                 (trace (run (Login Demo.W) []))).
  { left. reflexivity. }
  split; [exact H|].
  destruct (Login_signs_only_verified Demo.W [] _ _ H) as (_ & Hv & _).
  reflexivity.
Defined.

(** X2. The claims that [Login] signs identify the verified user: user id,
    mail, group and root flag are those of the record that [user.Verify]
    loaded, and the user name is the one of the request. *)
Theorem Login_claims_identity :
  forall (W : Collab) (st0 : list Event) c key,
    In (E_SignedString c key) (trace (run (Login W) st0)) ->
    let reqBody := fst (Valid_Login W) in
    let user := snd (User_Verify W (LoginReqParams.Username reqBody)
                       (LoginReqParams.Passwd reqBody)) in
    Username c = LoginReqParams.Username reqBody /\
    UserID c = models.ID user /\
    Mail c = models.Mail user /\
    GroupID c = models.GroupID user /\
    Root c = models.Root user.
Proof.
  intros W st0 c key. cbv zeta.
  exec; cbn [In]; intros H; split_In; repeat split.
Qed.

Lemma Login_claims_identity_witness :
  In (E_SignedString (set_ExpiresAt 1700003600%Z Demo.admin) "signing-key")
     (trace (run (Login Demo.W) [])) /\
  UserID (set_ExpiresAt 1700003600%Z Demo.admin) = 1%N /\
  GroupID (set_ExpiresAt 1700003600%Z Demo.admin) = 1%N.
Proof.
  assert (H : In (E_SignedString (set_ExpiresAt 1700003600%Z Demo.admin) "signing-key")
                 (trace (run (Login Demo.W) []))).
  { left. reflexivity. }
  split; [exact H|].
  destruct (Login_claims_identity Demo.W [] _ _ H) as (_ & Hu & _ & Hg & _).
  split; [exact Hu | exact Hg].
Defined.

(** X3. A successful [Login] answers with the token exactly as the signer
    returned it for the claims it was given, together with the group, root
    flag, mail and id of the verified user. *)
Theorem Login_success_data :
  forall (W : Collab) (st0 : list Event) msg data,
    In (E_resp (Succ msg data)) (trace (run (Login W) st0)) ->
    let reqBody := fst (Valid_Login W) in
    let user := snd (User_Verify W (LoginReqParams.Username reqBody)
                       (LoginReqParams.Passwd reqBody)) in
    exists c token,
      In (E_SignedString c (cfg_Jwt_SigningKey W)) (trace (run (Login W) st0)) /\
      SignedString W c (cfg_Jwt_SigningKey W) = (token, None) /\
      msg = "" /\
      data = data_login token (models.GroupID user) (models.Root user)
               (models.Mail user) (models.ID user).
Proof.
  intros W st0 msg data. cbv zeta.
  exec; cbn [In]; intros H; split_In;
    do 2 eexists; (split; [left; reflexivity|]);
    (split; [eassumption|]); split; reflexivity.
Qed.

Lemma Login_success_data_witness :
  In (E_resp (Succ "" (data_login "jwt.admin" 1%N true "admin@example.org" 1%N)))
     (trace (run (Login Demo.W) [])) /\
  exists c token,
    SignedString Demo.W c "signing-key" = (token, None) /\
    data_login "jwt.admin" 1%N true "admin@example.org" 1%N
    = data_login token 1%N true "admin@example.org" 1%N.
Proof.
  assert (H : In (E_resp (Succ "" (data_login "jwt.admin" 1%N true
                                     "admin@example.org" 1%N)))
                 (trace (run (Login Demo.W) []))).
  { right. left. reflexivity. }
  split; [exact H|].
  destruct (Login_success_data Demo.W [] _ _ H) as (c & token & _ & Hs & _ & Hd).
  exists c, token. split; [exact Hs | exact Hd].
Defined.

(** X4. When signing fails, [Login] answers [respAuthFailed] with its own
    fixed message: the login fails although the credentials were right, and
    the signer's error is not passed on. *)
Theorem Login_signing_failure :
  forall (W : Collab) (st0 : list Event) c key token e,
    In (E_SignedString c key) (trace (run (Login W) st0)) ->
    SignedString W c key = (token, Some e) ->
    responses (trace (run (Login W) st0))
    = [AuthFailed (errors_New "无法生成访问凭证")].
Proof.
  intros W st0 c key token e.
  exec; cbn [In]; intros H Hs; split_In; try congruence;
    match goal with
    | H1 : SignedString W _ _ = (_, None), H2 : SignedString W _ _ = (_, Some _) |- _ =>
        pose proof (eq_trans (eq_sym H1) H2) as X; discriminate X
    end.
Qed.

Lemma Login_signing_failure_witness :
  In (E_SignedString (set_ExpiresAt 1700003600%Z Demo.admin) "signing-key")
     (trace (run (Login Cases.W_no_key) [])) /\
  responses (trace (run (Login Cases.W_no_key) []))
  = [AuthFailed (errors_New "无法生成访问凭证")].
Proof.
  assert (H : In (E_SignedString (set_ExpiresAt 1700003600%Z Demo.admin) "signing-key")
                 (trace (run (Login Cases.W_no_key) []))).
  { left. reflexivity. }
  split; [exact H|].
  exact (Login_signing_failure Cases.W_no_key [] _ _ "" (errors_New "key is invalid")
           H eq_refl).
Defined.

(** ** AuditJob, further *)

(** X5. [Login] and [AuditJob] each write exactly one response, whatever
    their collaborators answer. *)
Theorem Login_AuditJob_one_response :
  forall (W : Collab) (st0 : list Event),
    length (responses (trace (run (Login W) st0))) = 1 /\
    length (responses (trace (run (AuditJob W) st0))) = 1.
Proof. intros W st0. split; exec; reflexivity. Qed.

(** X6. An event published by [AuditJob] always follows a remote call to
    the same address that returned no error, and is followed by the success
    response.  Its payload is the request body, its address the request's,
    and its kind goes with the job type: [event_AuditCrontabJob] for
    ["crontab"], [event_AuditDaemonJob] otherwise. *)
Theorem AuditJob_event_follows_dispatch :
  forall (W : Collab) (st0 : list Event) subject kind addr payload,
    In (E_pubEvent subject kind addr payload) (trace (run (AuditJob W) st0)) ->
    let reqBody := fst (fst (verify_AuditJob W)) in
    payload = reqBody /\
    addr = AuditJobReqParams.Addr reqBody /\
    kind = (if (AuditJobReqParams.JobType reqBody =? "crontab")%string
            then event_AuditCrontabJob else event_AuditDaemonJob) /\
    exists method args,
      trace (run (AuditJob W) st0)
      = [E_rpcCall addr method args None;
         E_pubEvent subject kind addr payload;
         E_resp (Succ "" data_nil)].
Proof.
  intros W st0 subject kind addr payload. cbv zeta.
  exec; cbn [In]; intros H; split_In;
    repeat split; do 2 eexists; reflexivity.
Qed.

Lemma AuditJob_event_follows_dispatch_witness :
  In (E_pubEvent "watcher" event_AuditDaemonJob "10.0.0.7:20001"
        (Demo.audit "10.0.0.7:20001" "daemon"))
     (trace (run (AuditJob Demo.W_bob_daemon) [])) /\
  exists method args,
    trace (run (AuditJob Demo.W_bob_daemon) [])
    = [E_rpcCall "10.0.0.7:20001" method args None;
       E_pubEvent "watcher" event_AuditDaemonJob "10.0.0.7:20001"
         (Demo.audit "10.0.0.7:20001" "daemon");
       E_resp (Succ "" data_nil)].
Proof.
  assert (H : In (E_pubEvent "watcher" event_AuditDaemonJob "10.0.0.7:20001"
                    (Demo.audit "10.0.0.7:20001" "daemon"))
                 (trace (run (AuditJob Demo.W_bob_daemon) []))).
  { right. left. reflexivity. }
  split; [exact H|].
  exact (proj2 (proj2 (proj2 (AuditJob_event_follows_dispatch Demo.W_bob_daemon []
                                _ _ _ _ H)))).
Defined.

(** X7. [AuditJob] answers success exactly when its remote call returned
    no error: every other run ends in an error response. *)
Theorem AuditJob_success_iff_dispatched :
  forall (W : Collab) (st0 : list Event),
    let s := run (AuditJob W) st0 in
    In (Succ "" data_nil) (responses (trace s)) <->
    exists addr method args, In (E_rpcCall addr method args None) (trace s).
Proof.
  intros W st0. cbv zeta.
  exec; cbn [In]; split;
    try (intros H; split_In; discriminate);
    try (intros (addr & method & args & H); split_In; fail);
    try (intros _; do 3 eexists; left; reflexivity);
    try (intros _; left; reflexivity).
Qed.

(** ** GetUserList, further *)

(** X8. A caller outside the Super Group only ever makes [GetUserList]
    query the users of the caller's own group: every query of the run is
    restricted to [ctx.claims.GroupID]. *)
Theorem GetUserList_group_isolation :
  forall (W : Collab) (st0 : list Event) q,
    In (E_db q) (trace (run (GetUserList W) st0)) ->
    let c := fst (claimsFromToken W) in
    GroupID c <> SuperGroup_ID W ->
    q = Count_users (Some (GroupID c)) \/
    exists offset limit, q = Find_users (Some (GroupID c)) offset limit.
Proof.
  intros W st0 q. cbv zeta.
  exec; cbn [In]; intros H Hg; split_In;
    repeat match goal with
           | H : (_ =? _)%N = true |- _ => apply N.eqb_eq in H
           | H : (_ =? _)%N = false |- _ => apply N.eqb_neq in H
           end;
    try congruence;
    repeat match goal with
           | H : GetUsersParams.QueryGroupID _ = GroupID _ |- _ => rewrite H in *; clear H
           end;
    first [ left; reflexivity | right; do 2 eexists; reflexivity ].
Qed.

Lemma GetUserList_group_isolation_witness :
  In (E_db (Find_users (Some 7%N) (Some 1%Z) 2%Z))
     (trace (run (GetUserList Cases.W_alice_group) [])) /\
  GroupID Demo.alice <> SuperGroup_ID Cases.W_alice_group /\
  (Find_users (Some 7%N) (Some 1%Z) 2%Z = Count_users (Some 7%N) \/
   exists offset limit,
     Find_users (Some 7%N) (Some 1%Z) 2%Z = Find_users (Some 7%N) offset limit).
Proof.
  assert (H : In (E_db (Find_users (Some 7%N) (Some 1%Z) 2%Z))
                 (trace (run (GetUserList Cases.W_alice_group) []))).
  { right. right. left. reflexivity. }
  assert (Hg : GroupID Demo.alice <> SuperGroup_ID Cases.W_alice_group).
  { discriminate. }
  split; [exact H|]. split; [exact Hg|].
  exact (GetUserList_group_isolation Cases.W_alice_group [] _ H Hg).
Defined.

Ltac N_eqb_hyps :=
  repeat match goal with
         | H : (_ =? _)%N = true |- _ => apply N.eqb_eq in H
         | H : (_ =? _)%N = false |- _ => apply N.eqb_neq in H
         end.

(** X9. The default of line 386 (no group in the request means the
    caller's group) is applied after the authorization test of line 381.
    A caller outside the Super Group who leaves the group out, and whose
    own group is not 0, is therefore rejected without any query; a member
    of the Super Group who leaves it out gets the users of the Super
    Group. *)
Theorem GetUserList_group_left_out :
  forall (W : Collab) (st0 : list Event) body err c,
    Valid_GetUsers W = (body, err) ->
    GetUsersParams.IsAll body = false ->
    GetUsersParams.QueryGroupID body = 0%N ->
    claimsFromToken W = (c, None) ->
    let s := run (GetUserList W) st0 in
    (GroupID c <> SuperGroup_ID W -> GroupID c <> 0%N ->
     In NotAllowed (responses (trace s)) /\ forall q, ~ In (E_db q) (trace s)) /\
    (GroupID c = SuperGroup_ID W ->
     In (E_db (Count_users (Some (SuperGroup_ID W)))) (trace s)).
Proof.
  intros W st0 body err c Hb Hall Hq Hc. cbv zeta. split.
  - intros Hg H0. apply N.eqb_neq in Hg.
    assert (Hq' : (GetUsersParams.QueryGroupID body =? GroupID c)%N = false).
    { rewrite Hq. apply N.eqb_neq. congruence. }
    exec; cbn [In]; (split; [tauto | intros q H; split_In]).
  - intros Hg.
    assert (Hg' : (GroupID c =? SuperGroup_ID W)%N = true) by now apply N.eqb_eq.
    assert (Hq' : (GetUsersParams.QueryGroupID body =? 0)%N = true) by now apply N.eqb_eq.
    rewrite <- Hg.
    exec; cbn [In]; tauto.
Qed.

Lemma GetUserList_group_left_out_witness :
  In NotAllowed (responses (trace (run (GetUserList Cases.W_alice_no_group) []))) /\
  In (E_db (Count_users (Some 1%N)))
     (trace (run (GetUserList Cases.W_admin_no_group) [])).
Proof.
  split.
  - apply (GetUserList_group_left_out Cases.W_alice_no_group []
             (GetUsersParams.mk false 0%N 1%Z 20%Z) None Demo.alice
             eq_refl eq_refl eq_refl eq_refl); discriminate.
  - apply (GetUserList_group_left_out Cases.W_admin_no_group []
             (GetUsersParams.mk false 0%N 1%Z 20%Z) None Demo.admin
             eq_refl eq_refl eq_refl eq_refl). reflexivity.
Defined.

(** X10. When counting the users fails with an error other than
    [sql.ErrNoRows], [GetUserList] answers [respBasicError] with that error
    and does not fetch any row. *)
Theorem GetUserList_count_error :
  forall (W : Collab) (st0 : list Event) g total msg,
    let s := run (GetUserList W) st0 in
    In (E_db (Count_users g)) (trace s) ->
    db_Count W (Count_users g) = (total, Some (errors_New msg)) ->
    In (BasicError (errors_New msg)) (responses (trace s)) /\
    forall g' offset limit, ~ In (E_db (Find_users g' offset limit)) (trace s).
Proof.
  intros W st0 g total msg. cbv zeta.
  exec; cbn [In]; intros H Hn; split_In; try congruence;
    match goal with
    | H1 : db_Count W ?q = _, H2 : db_Count W ?q = _ |- _ =>
        rewrite H1 in H2; inversion H2; subst
    end;
    (split; [ tauto | intros g' offset limit H; split_In ]).
Qed.

Lemma GetUserList_count_error_witness :
  In (E_db (Count_users None)) (trace (run (GetUserList Cases.W_count_down) [])) /\
  responses (trace (run (GetUserList Cases.W_count_down) []))
  = [BasicError (errors_New "connection lost")].
Proof.
  assert (H : In (E_db (Count_users None))
                 (trace (run (GetUserList Cases.W_count_down) []))).
  { right. left. reflexivity. }
  split; [exact H|].
  destruct (GetUserList_count_error Cases.W_count_down [] None 0%Z "connection lost"
              H eq_refl) as (_ & _).
  reflexivity.
Defined.

(** X11. [sql.ErrNoRows] is not an error for [GetUserList]: when the count
    returns it the handler goes on to fetch the rows, and when the fetch
    returns it too the handler answers success, with the total and the list
    as the database left them. *)
Theorem GetUserList_ErrNoRows_tolerated :
  forall (W : Collab) (st0 : list Event) g total,
    let s := run (GetUserList W) st0 in
    In (E_db (Count_users g)) (trace s) ->
    db_Count W (Count_users g) = (total, Some sql_ErrNoRows) ->
    exists g' offset limit,
      In (E_db (Find_users g' offset limit)) (trace s) /\
      forall list,
        db_Find W (Find_users g' offset limit) = (list, Some sql_ErrNoRows) ->
        exists page pagesize,
          In (Succ "" (data_userList list total page pagesize)) (responses (trace s)).
Proof.
  intros W st0 g total. cbv zeta.
  exec; cbn [In]; intros H Hn; split_In; try congruence;
    match goal with
    | H1 : db_Count W ?q = _, H2 : db_Count W ?q = _ |- _ =>
        rewrite H1 in H2; inversion H2; subst
    end;
    do 3 eexists; (split; [tauto|]); intros list Hf;
    match goal with
    | H1 : db_Find W ?q = _, H2 : db_Find W ?q = _ |- _ =>
        rewrite H1 in H2; inversion H2; subst
    end;
    do 2 eexists; tauto.
Qed.

Lemma GetUserList_ErrNoRows_tolerated_witness :
  In (E_db (Count_users None)) (trace (run (GetUserList Cases.W_count_no_rows) [])) /\
  exists g' offset limit,
    In (E_db (Find_users g' offset limit))
       (trace (run (GetUserList Cases.W_count_no_rows) [])).
Proof.
  assert (H : In (E_db (Count_users None))
                 (trace (run (GetUserList Cases.W_count_no_rows) []))).
  { right. left. reflexivity. }
  split; [exact H|].
  destruct (GetUserList_ErrNoRows_tolerated Cases.W_count_no_rows [] None 0%Z
              H eq_refl) as (g' & offset & limit & Hf & _).
  now exists g', offset, limit.
Defined.

(** X12. When fetching the rows fails with an error other than
    [sql.ErrNoRows], [GetUserList] answers [respDBError] with that error
    and no success response is written. *)
Theorem GetUserList_find_error :
  forall (W : Collab) (st0 : list Event) g offset limit list msg,
    let s := run (GetUserList W) st0 in
    In (E_db (Find_users g offset limit)) (trace s) ->
    db_Find W (Find_users g offset limit) = (list, Some (errors_New msg)) ->
    In (DBError (errors_New msg)) (responses (trace s)) /\
    forall m d, ~ In (Succ m d) (responses (trace s)).
Proof.
  intros W st0 g offset limit list msg. cbv zeta.
  exec; cbn [In]; intros H Hn; split_In; try congruence;
    match goal with
    | H1 : db_Find W ?q = _, H2 : db_Find W ?q = _ |- _ =>
        rewrite H1 in H2; inversion H2; subst
    end;
    (split; [ tauto | intros m d H; repeat (destruct H as [H|H]; try discriminate H); exact H ]).
Qed.

Lemma GetUserList_find_error_witness :
  In (E_db (Find_users None None 20%Z))
     (trace (run (GetUserList Cases.W_find_down) [])) /\
  In (DBError (errors_New "connection lost"))
     (responses (trace (run (GetUserList Cases.W_find_down) []))).
Proof.
  assert (H : In (E_db (Find_users None None 20%Z))
                 (trace (run (GetUserList Cases.W_find_down) []))).
  { right. right. left. reflexivity. }
  split; [exact H|].
  exact (proj1 (GetUserList_find_error Cases.W_find_down [] None None 20%Z []
                  "connection lost" H eq_refl)).
Defined.

(** X13. Listing one group: for a valid request with [IsAll = false] for a
    group other than 0 that is the caller's own, or for any such group when
    the caller is in the Super Group, the handler counts the users of that
    group, fetches them with [Offset(Page - 1)] and [Limit(Pagesize)], and
    answers with the rows, the total, and the page and page size of the
    request. *)
Theorem GetUserList_group_listing :
  forall (W : Collab) (st0 : list Event) body c total list,
    Valid_GetUsers W = (body, None) ->
    claimsFromToken W = (c, None) ->
    GetUsersParams.IsAll body = false ->
    GetUsersParams.QueryGroupID body <> 0%N ->
    GetUsersParams.QueryGroupID body = GroupID c \/ GroupID c = SuperGroup_ID W ->
    let g := GetUsersParams.QueryGroupID body in
    let find := Find_users (Some g) (Some (sub64 (GetUsersParams.Page body) 1%Z))
                  (GetUsersParams.Pagesize body) in
    db_Count W (Count_users (Some g)) = (total, None) ->
    db_Find W find = (list, None) ->
    trace (run (GetUserList W) st0)
    = [E_parseClaimsFromToken;
       E_db (Count_users (Some g));
       E_db find;
       E_resp (Succ "" (data_userList list total (GetUsersParams.Page body)
                          (GetUsersParams.Pagesize body)))].
Proof.
  intros W st0 body c total list Hb Hc Hall Hq Hg. cbv zeta. intros Hn Hf.
  apply N.eqb_neq in Hq.
  exec; try reflexivity; N_eqb_hyps; destruct Hg; congruence.
Qed.

Lemma GetUserList_group_listing_witness :
  trace (run (GetUserList Cases.W_alice_group) [])
  = [E_parseClaimsFromToken;
     E_db (Count_users (Some 7%N));
     E_db (Find_users (Some 7%N) (Some 1%Z) 2%Z);
     E_resp (Succ "" (data_userList [nth 2 Demo.users models.zeroUser] 2%Z 2%Z 2%Z))].
Proof.
  apply (GetUserList_group_listing Cases.W_alice_group []
           (GetUsersParams.mk false 7%N 2%Z 2%Z) Demo.alice 2%Z
           [nth 2 Demo.users models.zeroUser]);
    try reflexivity.
  - discriminate.
  - left. reflexivity.
Defined.

(** X14. Listing all users: for a valid request with [IsAll = true] from a
    member of the Super Group, the handler counts all users and fetches
    them with [Limit(Pagesize)] and no offset; neither the page nor the
    group of the request reaches the database, and the page is only echoed
    in the answer. *)
Theorem GetUserList_all_listing :
  forall (W : Collab) (st0 : list Event) body c total list,
    Valid_GetUsers W = (body, None) ->
    claimsFromToken W = (c, None) ->
    GetUsersParams.IsAll body = true ->
    GroupID c = SuperGroup_ID W ->
    db_Count W (Count_users None) = (total, None) ->
    db_Find W (Find_users None None (GetUsersParams.Pagesize body)) = (list, None) ->
    trace (run (GetUserList W) st0)
    = [E_parseClaimsFromToken;
       E_db (Count_users None);
       E_db (Find_users None None (GetUsersParams.Pagesize body));
       E_resp (Succ "" (data_userList list total (GetUsersParams.Page body)
                          (GetUsersParams.Pagesize body)))].
Proof.
  intros W st0 body c total list Hb Hc Hall Hg Hn Hf.
  apply N.eqb_eq in Hg.
  exec; reflexivity.
Qed.

Lemma GetUserList_all_listing_witness :
  trace (run (GetUserList Demo.W) [])
  = [E_parseClaimsFromToken;
     E_db (Count_users None);
     E_db (Find_users None None 20%Z);
     E_resp (Succ "" (data_userList Demo.users 3%Z 1%Z 20%Z))].
Proof.
  apply (GetUserList_all_listing Demo.W [] (GetUsersParams.mk true 0%N 1%Z 20%Z)
           Demo.admin 3%Z Demo.users); reflexivity.
Defined.

(** X15. [GetUserList] writes one response for a body that passes
    validation and two for a body that fails it: the parameter error, and
    then whatever the rest of the handler answers. *)
Theorem GetUserList_response_count :
  forall (W : Collab) (st0 : list Event),
    length (responses (trace (run (GetUserList W) st0)))
    = match snd (Valid_GetUsers W) with
      | None => 1
      | Some _ => 2
      end.
Proof. intros W st0. exec; reflexivity. Qed.

(** * Properties of the other handlers *)

Ltac mgmt_run :=
  unfold Mgmt.run, Mgmt.wrapCtx, Mgmt.GetActivityList, Mgmt.GetJobHistory,
    Mgmt.IninAdminUser, Mgmt.Signup, Mgmt.UserStat, Mgmt.GroupUser.

Ltac mgmt_step :=
  cbv beta iota zeta delta
      [Mgmt.bind Mgmt.ret Mgmt.Return Mgmt.log Mgmt.when Mgmt.if_err
       Mgmt.if_err_not_ErrNoRows Mgmt.is_nil Mgmt.get_claims Mgmt.put_claims
       Mgmt.respParamError Mgmt.respBasicError Mgmt.respJWTError Mgmt.respDBError
       Mgmt.respNotAllowed Mgmt.respError Mgmt.respSucc
       Mgmt.parseClaimsFromToken Mgmt.getGroupAddr Mgmt.isSuper Mgmt.pubEvent
       Mgmt.SetUsed Mgmt.DB_Find_events Mgmt.DB_Find_history Mgmt.DB_Take
       Mgmt.User_Create Mgmt.DB_Save Mgmt.User_SetGroup Mgmt.DB_Scan
       Mgmt.SetGroupReqParams.set_TargetGroupID is_ErrNoRows
       Mgmt.claims Mgmt.trace fst snd negb andb orb];
  cbn [app Mgmt.responses Mgmt.queries Mgmt.pubEvents Mgmt.is_pubEvent
       filter flat_map
       Mgmt.SetGroupReqParams.TargetGroupID Mgmt.SetGroupReqParams.TargetGroupName
       Mgmt.SetGroupReqParams.UserID Mgmt.SetGroupReqParams.Root].

Ltac mgmt_exec := mgmt_run; mgmt_step; repeat (answer; mgmt_step).

Ltac mgmt_In :=
  repeat match goal with
         | H : _ \/ _ |- _ => destruct H as [H|H]
         | H : False |- _ => destruct H
         | H : @eq Mgmt.Effect _ _ |- _ =>
             first [ discriminate H | inversion H; subst; clear H ]
         end.

(** ** Signup *)

(** X16. [Signup] by a caller who is not in the Super Group does nothing:
    no user is created and no event is published; for a valid body the
    only thing that happens is the answer [respNotAllowed]. *)
Theorem Signup_not_super :
  forall (W : Mgmt.World),
    Mgmt.IsSuper W = false ->
    let s := Mgmt.run (Mgmt.Signup W) in
    Mgmt.queries (Mgmt.trace s) = [] /\
    Mgmt.pubEvents (Mgmt.trace s) = [] /\
    (snd (Mgmt.Valid_User W) = None -> Mgmt.trace s = [Mgmt.E_resp Mgmt.NotAllowed]).
Proof.
  intros W Hs. cbv zeta. mgmt_exec; repeat split; discriminate.
Qed.

Lemma Signup_not_super_witness :
  Mgmt.IsSuper MgmtDemo.W_not_super = false /\
  Mgmt.trace (Mgmt.run (Mgmt.Signup MgmtDemo.W_not_super)) = [Mgmt.E_resp Mgmt.NotAllowed].
Proof.
  split; [reflexivity|].
  apply (Signup_not_super MgmtDemo.W_not_super eq_refl). reflexivity.
Defined.

(** X17. The user that [Signup] creates is the one the request describes:
    name, password, mail, group and root flag are taken from the body as
    they are, and the id is left at zero.  A member of the Super Group can
    thus create a root user in any group.  Nothing is created unless the
    body is valid and the caller is in the Super Group. *)
Theorem Signup_creates_as_requested :
  forall (W : Mgmt.World) u,
    In (Mgmt.E_db (Mgmt.Create_user u)) (Mgmt.trace (Mgmt.run (Mgmt.Signup W))) ->
    let reqBody := fst (Mgmt.Valid_User W) in
    snd (Mgmt.Valid_User W) = None /\
    Mgmt.IsSuper W = true /\
    u = models.mkUser 0%N (Mgmt.UserReqParams.Username reqBody)
          (Mgmt.UserReqParams.Passwd reqBody) (Mgmt.UserReqParams.Mail reqBody)
          (Mgmt.UserReqParams.GroupID reqBody) (Mgmt.UserReqParams.Root reqBody).
Proof.
  intros W u. cbv zeta.
  mgmt_exec; cbn [In]; intros H; mgmt_In; repeat split.
Qed.

Lemma Signup_creates_as_requested_witness :
  In (Mgmt.E_db (Mgmt.Create_user
                   (models.mkUser 0%N "carol" "pa55" "carol@example.org" 7%N true)))
     (Mgmt.trace (Mgmt.run (Mgmt.Signup MgmtDemo.W))) /\
  Mgmt.IsSuper MgmtDemo.W = true.
Proof.
  assert (H : In (Mgmt.E_db (Mgmt.Create_user
                               (models.mkUser 0%N "carol" "pa55" "carol@example.org"
                                  7%N true)))
                 (Mgmt.trace (Mgmt.run (Mgmt.Signup MgmtDemo.W)))).
  { left. reflexivity. }
  split; [exact H|].
  exact (proj1 (proj2 (Signup_creates_as_requested MgmtDemo.W _ H))).
Defined.

(** X18. An event published by [Signup] is a sign-up event with no address
    whose payload is the request body as received, password included.  It
    follows a [Create] that returned no error, it is named after the user
    as [Create] left it, and it is followed by the success response. *)
Theorem Signup_event_after_create :
  forall (W : Mgmt.World) subject kind addr payload,
    let tr := Mgmt.trace (Mgmt.run (Mgmt.Signup W)) in
    In (Mgmt.E_pubEvent subject kind addr payload) tr ->
    kind = event_SignUpUser /\
    addr = "" /\
    payload = Mgmt.payload_User (fst (Mgmt.Valid_User W)) /\
    exists u u',
      Mgmt.db_Create W u = (u', None) /\
      subject = models.Username u' /\
      tr = [Mgmt.E_db (Mgmt.Create_user u);
            Mgmt.E_pubEvent subject kind addr payload;
            Mgmt.E_resp (Mgmt.Succ "" Mgmt.data_true)].
Proof.
  intros W subject kind addr payload. cbv zeta.
  mgmt_exec; cbn [In]; intros H; mgmt_In; repeat split;
    do 2 eexists; (split; [eassumption|]); split; reflexivity.
Qed.

Lemma Signup_event_after_create_witness :
  In (Mgmt.E_pubEvent "carol" event_SignUpUser ""
        (Mgmt.payload_User
           (Mgmt.UserReqParams.mk "carol" "pa55" 7%N true "carol@example.org")))
     (Mgmt.trace (Mgmt.run (Mgmt.Signup MgmtDemo.W))) /\
  exists u u', Mgmt.db_Create MgmtDemo.W u = (u', None) /\ "carol" = models.Username u'.
Proof.
  assert (H : In (Mgmt.E_pubEvent "carol" event_SignUpUser ""
                    (Mgmt.payload_User
                       (Mgmt.UserReqParams.mk "carol" "pa55" 7%N true
                          "carol@example.org")))
                 (Mgmt.trace (Mgmt.run (Mgmt.Signup MgmtDemo.W)))).
  { right. left. reflexivity. }
  split; [exact H|].
  destruct (Signup_event_after_create MgmtDemo.W _ _ _ _ H)
    as (_ & _ & _ & u & u' & Hc & Hs & _).
  exists u, u'. split; [exact Hc | exact Hs].
Defined.

(** X19. When [user.Create] fails in [Signup], the handler answers
    [respDBError] with the error and publishes no event. *)
Theorem Signup_create_error :
  forall (W : Mgmt.World) u u' e,
    let tr := Mgmt.trace (Mgmt.run (Mgmt.Signup W)) in
    In (Mgmt.E_db (Mgmt.Create_user u)) tr ->
    Mgmt.db_Create W u = (u', Some e) ->
    Mgmt.responses tr = [Mgmt.DBError e] /\ Mgmt.pubEvents tr = [].
Proof.
  intros W u u' e. cbv zeta.
  mgmt_exec; cbn [In]; intros H Hc; mgmt_In;
    match goal with
    | H1 : Mgmt.db_Create W ?x = _, H2 : Mgmt.db_Create W ?y = _ |- _ =>
        pose proof (eq_trans (eq_sym H1) H2) as X; inversion X; subst
    end;
    split; reflexivity.
Qed.

Lemma Signup_create_error_witness :
  In (Mgmt.E_db (Mgmt.Create_user
                   (models.mkUser 0%N "carol" "pa55" "carol@example.org" 7%N true)))
     (Mgmt.trace (Mgmt.run (Mgmt.Signup MgmtDemo.W_create_fails))) /\
  Mgmt.responses (Mgmt.trace (Mgmt.run (Mgmt.Signup MgmtDemo.W_create_fails)))
  = [Mgmt.DBError (errors_New "duplicate entry")].
Proof.
  assert (H : In (Mgmt.E_db (Mgmt.Create_user
                               (models.mkUser 0%N "carol" "pa55" "carol@example.org"
                                  7%N true)))
                 (Mgmt.trace (Mgmt.run (Mgmt.Signup MgmtDemo.W_create_fails)))).
  { left. reflexivity. }
  split; [exact H|].
  exact (proj1 (Signup_create_error MgmtDemo.W_create_fails _
                  (models.mkUser 4%N "carol" "pa55" "carol@example.org" 7%N true)
                  (errors_New "duplicate entry") H eq_refl)).
Defined.

(** ** IninAdminUser *)

(** X20. The user that [IninAdminUser] creates is always a root user of
    the Super Group, whatever group and root flag the request carries; its
    name, password and mail are those of the request. *)
Theorem IninAdminUser_creates_root_in_super_group :
  forall (W : Mgmt.World) u,
    In (Mgmt.E_db (Mgmt.Create_user u))
       (Mgmt.trace (Mgmt.run (Mgmt.IninAdminUser W))) ->
    let reqBody := fst (Mgmt.Valid_User W) in
    models.Root u = true /\
    models.GroupID u = Mgmt.SuperGroup_ID W /\
    models.Username u = Mgmt.UserReqParams.Username reqBody /\
    models.Passwd u = Mgmt.UserReqParams.Passwd reqBody /\
    models.Mail u = Mgmt.UserReqParams.Mail reqBody.
Proof.
  intros W u. cbv zeta.
  mgmt_exec; cbn [In]; intros H; mgmt_In; repeat split.
Qed.

Lemma IninAdminUser_creates_root_in_super_group_witness :
  In (Mgmt.E_db (Mgmt.Create_user
                   (models.mkUser 0%N "carol" "pa55" "carol@example.org" 1%N true)))
     (Mgmt.trace (Mgmt.run (Mgmt.IninAdminUser MgmtDemo.W))) /\
  Mgmt.UserReqParams.GroupID (fst (Mgmt.Valid_User MgmtDemo.W)) = 7%N /\
  models.GroupID (models.mkUser 0%N "carol" "pa55" "carol@example.org" 1%N true)
  = Mgmt.SuperGroup_ID MgmtDemo.W.
Proof.
  assert (H : In (Mgmt.E_db (Mgmt.Create_user
                               (models.mkUser 0%N "carol" "pa55" "carol@example.org"
                                  1%N true)))
                 (Mgmt.trace (Mgmt.run (Mgmt.IninAdminUser MgmtDemo.W)))).
  { right. left. reflexivity. }
  split; [exact H|]. split; [reflexivity|].
  exact (proj1 (proj2 (IninAdminUser_creates_root_in_super_group MgmtDemo.W _ H))).
Defined.

(** X21. Once a user of group 1 exists, [IninAdminUser] refuses: when the
    look-up returns no error and at least one row, nothing is created and
    [cfg.SetUsed] is not called, and a valid request is answered
    [respNotAllowed]. *)
Theorem IninAdminUser_refused_when_initialised :
  forall (W : Mgmt.World) found rows,
    Mgmt.db_Take W (Mgmt.Take_user 1%N) = (found, None, rows) ->
    (0 < rows)%Z ->
    let tr := Mgmt.trace (Mgmt.run (Mgmt.IninAdminUser W)) in
    (forall u, ~ In (Mgmt.E_db (Mgmt.Create_user u)) tr) /\
    ~ In Mgmt.E_SetUsed tr /\
    (snd (Mgmt.Valid_User W) = None ->
     tr = [Mgmt.E_db (Mgmt.Take_user 1%N); Mgmt.E_resp Mgmt.NotAllowed]).
Proof.
  intros W found rows Ht Hr. cbv zeta.
  apply Z.ltb_lt in Hr.
  mgmt_exec; cbn [In]; repeat split; try discriminate;
    try (intros u H; mgmt_In); try (intros H; mgmt_In).
Qed.

Lemma IninAdminUser_refused_when_initialised_witness :
  Mgmt.trace (Mgmt.run (Mgmt.IninAdminUser MgmtDemo.W_initialised))
  = [Mgmt.E_db (Mgmt.Take_user 1%N); Mgmt.E_resp Mgmt.NotAllowed].
Proof.
  apply (IninAdminUser_refused_when_initialised MgmtDemo.W_initialised
           (nth 0 Demo.users models.zeroUser) 1%Z eq_refl).
  - reflexivity.
  - reflexivity.
Defined.

(** X22. The guard of [IninAdminUser] only holds when the look-up
    succeeds.  When the look-up returns an error, whatever the error and
    whatever the row count, a valid request goes on and creates the
    administrator, on top of the record that the look-up left. *)
Theorem IninAdminUser_lookup_error_proceeds :
  forall (W : Mgmt.World) reqBody found e rows,
    Mgmt.Valid_User W = (reqBody, None) ->
    Mgmt.db_Take W (Mgmt.Take_user 1%N) = (found, Some e, rows) ->
    exists u rest,
      Mgmt.trace (Mgmt.run (Mgmt.IninAdminUser W))
      = Mgmt.E_db (Mgmt.Take_user 1%N) :: Mgmt.E_db (Mgmt.Create_user u) :: rest /\
      models.ID u = models.ID found /\
      models.Root u = true.
Proof.
  intros W reqBody found e rows Hv Ht.
  mgmt_exec; do 2 eexists; (split; [reflexivity|]); split; reflexivity.
Qed.

Lemma IninAdminUser_lookup_error_proceeds_witness :
  exists u rest,
    Mgmt.trace (Mgmt.run (Mgmt.IninAdminUser MgmtDemo.W_lookup_down))
    = Mgmt.E_db (Mgmt.Take_user 1%N) :: Mgmt.E_db (Mgmt.Create_user u) :: rest /\
    models.ID u = 0%N /\
    models.Root u = true.
Proof.
  exact (IninAdminUser_lookup_error_proceeds MgmtDemo.W_lookup_down
           (Mgmt.UserReqParams.mk "carol" "pa55" 7%N true "carol@example.org")
           models.zeroUser (errors_New "connection lost") 0%Z eq_refl eq_refl).
Defined.

(** X23. [IninAdminUser] asks nothing about the caller: what it does is
    the same for any token and for any answer of [ctx.isSuper], as long as
    the request body and the database are the same. *)
Theorem IninAdminUser_unauthenticated :
  forall (W W' : Mgmt.World),
    Mgmt.SuperGroup_ID W = Mgmt.SuperGroup_ID W' ->
    Mgmt.Valid_User W = Mgmt.Valid_User W' ->
    Mgmt.db_Take W = Mgmt.db_Take W' ->
    Mgmt.db_Create W = Mgmt.db_Create W' ->
    Mgmt.trace (Mgmt.run (Mgmt.IninAdminUser W))
    = Mgmt.trace (Mgmt.run (Mgmt.IninAdminUser W')).
Proof.
  intros W W' Hs Hv Ht Hc. mgmt_run. mgmt_step.
  rewrite <- ?Hs, <- ?Hv, <- ?Ht, <- ?Hc.
  repeat (answer; mgmt_step); reflexivity.
Qed.

Lemma IninAdminUser_unauthenticated_witness :
  Mgmt.IsSuper MgmtDemo.W = true /\
  Mgmt.IsSuper MgmtDemo.W_not_super = false /\
  Mgmt.trace (Mgmt.run (Mgmt.IninAdminUser MgmtDemo.W))
  = Mgmt.trace (Mgmt.run (Mgmt.IninAdminUser MgmtDemo.W_not_super)).
Proof.
  split; [reflexivity|]. split; [reflexivity|].
  apply (IninAdminUser_unauthenticated MgmtDemo.W MgmtDemo.W_not_super); reflexivity.
Defined.

(** ** GroupUser *)

(** X24. [GroupUser] by a caller who is not in the Super Group writes
    nothing to the database and publishes no event. *)
Theorem GroupUser_not_super :
  forall (W : Mgmt.World),
    Mgmt.IsSuper W = false ->
    let s := Mgmt.run (Mgmt.GroupUser W) in
    Mgmt.queries (Mgmt.trace s) = [] /\
    Mgmt.pubEvents (Mgmt.trace s) = [] /\
    (snd (Mgmt.Valid_SetGroup W) = None -> Mgmt.trace s = [Mgmt.E_resp Mgmt.NotAllowed]).
Proof.
  intros W Hs. cbv zeta. mgmt_exec; repeat split; discriminate.
Qed.

Lemma GroupUser_not_super_witness :
  Mgmt.IsSuper MgmtDemo.W_not_super = false /\
  Mgmt.trace (Mgmt.run (Mgmt.GroupUser MgmtDemo.W_not_super))
  = [Mgmt.E_resp Mgmt.NotAllowed].
Proof.
  split; [reflexivity|].
  apply (GroupUser_not_super MgmtDemo.W_not_super eq_refl). reflexivity.
Defined.

(** X25. When the request of [GroupUser] names a target group, the group
    is saved first and the user is moved to the id that [Save] gave it,
    whatever target id the request carried.  The user record handed to
    [SetGroup] holds the user id, that group and the root flag of the
    request, and an event published afterwards carries the body with the
    new target id.  When [SetGroup] then fails, the handler answers
    [respDBError] and stops: the group stays saved, and no event is
    published. *)
Theorem GroupUser_new_group :
  forall (W : Mgmt.World) reqBody g,
    Mgmt.Valid_SetGroup W = (reqBody, None) ->
    Mgmt.IsSuper W = true ->
    Mgmt.SetGroupReqParams.TargetGroupName reqBody <> "" ->
    let group := Mgmt.Group.mk 0%N (Mgmt.SetGroupReqParams.TargetGroupName reqBody) in
    Mgmt.db_Save W group = (g, None) ->
    let user := models.mkUser (Mgmt.SetGroupReqParams.UserID reqBody) "" "" ""
                  (Mgmt.Group.ID g) (Mgmt.SetGroupReqParams.Root reqBody) in
    let tr := Mgmt.trace (Mgmt.run (Mgmt.GroupUser W)) in
    (exists rest,
        tr = Mgmt.E_db (Mgmt.Save_group group)
             :: Mgmt.E_db (Mgmt.SetGroup_user user) :: rest) /\
    (forall subject kind addr payload,
        In (Mgmt.E_pubEvent subject kind addr payload) tr ->
        payload = Mgmt.payload_SetGroup
                    (Mgmt.SetGroupReqParams.set_TargetGroupID (Mgmt.Group.ID g) reqBody)) /\
    (forall u' e,
        Mgmt.db_SetGroup W user = (u', Some e) ->
        tr = [Mgmt.E_db (Mgmt.Save_group group);
              Mgmt.E_db (Mgmt.SetGroup_user user);
              Mgmt.E_resp (Mgmt.DBError e)]).
Proof.
  intros W reqBody g Hv Hs Hn. cbv zeta. intros Hg.
  apply String.eqb_neq in Hn.
  mgmt_exec; cbn [In]; repeat split;
    try (eexists; reflexivity);
    try (intros subject kind addr payload H; mgmt_In; reflexivity);
    intros u' e' Hu;
    match goal with
    | H1 : Mgmt.db_SetGroup W ?x = _ |- _ =>
        pose proof (eq_trans (eq_sym H1) Hu) as X; inversion X; subst; reflexivity
    end.
Qed.

Lemma GroupUser_new_group_witness :
  Mgmt.SetGroupReqParams.TargetGroupID MgmtDemo.move_alice_to_new = 9%N /\
  Mgmt.trace (Mgmt.run (Mgmt.GroupUser MgmtDemo.W_new_group_move_fails))
  = [Mgmt.E_db (Mgmt.Save_group (Mgmt.Group.mk 0%N "ops"));
     Mgmt.E_db (Mgmt.SetGroup_user (models.mkUser 2%N "" "" "" 12%N true));
     Mgmt.E_resp (Mgmt.DBError (errors_New "no such user"))].
Proof.
  split; [reflexivity|].
  assert (Hn : Mgmt.SetGroupReqParams.TargetGroupName MgmtDemo.move_alice_to_new <> "").
  { discriminate. }
  exact (proj2 (proj2 (GroupUser_new_group MgmtDemo.W_new_group_move_fails
                         MgmtDemo.move_alice_to_new (Mgmt.Group.mk 12%N "ops")
                         eq_refl eq_refl Hn eq_refl))
           (models.mkUser 2%N "" "" "" 12%N true) (errors_New "no such user") eq_refl).
Defined.

(** ** UserStat *)

(** X26. [UserStat] sums over the nodes of the caller's own group and of
    no other, once the token is parsed.  Unlike the list handlers it
    treats every error of the database as a failure, [sql.ErrNoRows]
    included: the answer is then [respDBError]. *)
Theorem UserStat_own_group :
  forall (W : Mgmt.World) c,
    Mgmt.claimsFromToken W = (c, None) ->
    let tr := Mgmt.trace (Mgmt.run (Mgmt.UserStat W)) in
    Mgmt.queries tr = [Mgmt.Scan_stat (GroupID c)] /\
    (forall st e,
        Mgmt.db_Scan W (Mgmt.Scan_stat (GroupID c)) = (st, Some e) ->
        Mgmt.responses tr = [Mgmt.DBError e]) /\
    (forall st,
        Mgmt.db_Scan W (Mgmt.Scan_stat (GroupID c)) = (st, None) ->
        Mgmt.responses tr = [Mgmt.Succ "" (Mgmt.data_stat (Mgmt.SystemInfo W) st)]).
Proof.
  intros W c Hc. cbv zeta.
  mgmt_exec; repeat split; intros; congruence.
Qed.

Lemma UserStat_own_group_witness :
  Mgmt.queries (Mgmt.trace (Mgmt.run (Mgmt.UserStat MgmtDemo.W_scan_no_rows)))
  = [Mgmt.Scan_stat 7%N] /\
  Mgmt.responses (Mgmt.trace (Mgmt.run (Mgmt.UserStat MgmtDemo.W_scan_no_rows)))
  = [Mgmt.DBError sql_ErrNoRows].
Proof.
  destruct (UserStat_own_group MgmtDemo.W_scan_no_rows Demo.alice eq_refl)
    as (Hq & He & _).
  split; [exact Hq|].
  exact (He MgmtDemo.stat sql_ErrNoRows eq_refl).
Defined.

(** ** GetActivityList and GetJobHistory *)

(** X27. [GetActivityList] only ever reads the events of the caller: its
    query is restricted to [ctx.claims.UserID], ordered by ["created_at "]
    followed by the [Orderby] of the request as it is, limited to the page
    size, and bounded by [id < LastID] exactly when [LastID] is not 0.  It
    is made only for a verified body and a parsed token. *)
Theorem GetActivityList_own_events :
  forall (W : Mgmt.World) q,
    In (Mgmt.E_db q) (Mgmt.trace (Mgmt.run (Mgmt.GetActivityList W))) ->
    let reqBody := fst (Mgmt.verify_ReadMore W) in
    let c := fst (Mgmt.claimsFromToken W) in
    snd (Mgmt.verify_ReadMore W) = None /\
    snd (Mgmt.claimsFromToken W) = None /\
    q = Mgmt.Find_events (UserID c)
          (if (Mgmt.ReadMoreReqParams.LastID reqBody =? 0)%Z
           then None else Some (Mgmt.ReadMoreReqParams.LastID reqBody))
          ("created_at " ++ Mgmt.ReadMoreReqParams.Orderby reqBody)
          (Mgmt.ReadMoreReqParams.Pagesize reqBody).
Proof.
  intros W q. cbv zeta.
  mgmt_exec; cbn [In]; intros H; mgmt_In; repeat split.
Qed.

Lemma GetActivityList_own_events_witness :
  In (Mgmt.E_db (Mgmt.Find_events 2%N (Some 31%Z) "created_at desc" 20%Z))
     (Mgmt.trace (Mgmt.run (Mgmt.GetActivityList MgmtDemo.W_more))) /\
  UserID (fst (Mgmt.claimsFromToken MgmtDemo.W_more)) = 2%N.
Proof.
  assert (H : In (Mgmt.E_db (Mgmt.Find_events 2%N (Some 31%Z) "created_at desc" 20%Z))
                 (Mgmt.trace (Mgmt.run (Mgmt.GetActivityList MgmtDemo.W_more)))).
  { right. left. reflexivity. }
  split; [exact H|].
  destruct (GetActivityList_own_events MgmtDemo.W_more _ H) as (_ & _ & _).
  reflexivity.
Defined.

(** X28. [GetJobHistory] only ever reads the history of the addresses that
    [ctx.getGroupAddr] returned, and only when it returned no error; the
    handler itself never parses the token.  When [ctx.getGroupAddr] fails,
    the answer is [respError] with the text of the error, and the error
    itself as data. *)
Theorem GetJobHistory_group_addrs :
  forall (W : Mgmt.World),
    let tr := Mgmt.trace (Mgmt.run (Mgmt.GetJobHistory W)) in
    let reqBody := fst (Mgmt.verify_ReadMore W) in
    (forall q,
        In (Mgmt.E_db q) tr ->
        snd (Mgmt.GroupAddr W) = None /\
        q = Mgmt.Find_history (fst (Mgmt.GroupAddr W))
              (if (Mgmt.ReadMoreReqParams.LastID reqBody =? 0)%Z
               then None else Some (Mgmt.ReadMoreReqParams.LastID reqBody))
              ("created_at " ++ Mgmt.ReadMoreReqParams.Orderby reqBody)
              (Mgmt.ReadMoreReqParams.Pagesize reqBody)) /\
    ~ In Mgmt.E_parseClaimsFromToken tr /\
    (forall e,
        snd (Mgmt.verify_ReadMore W) = None ->
        snd (Mgmt.GroupAddr W) = Some e ->
        tr = [Mgmt.E_getGroupAddr;
              Mgmt.E_resp (Mgmt.RespError (Mgmt.Error e) (Some e))]).
Proof.
  intros W. cbv zeta. split; [|split].
  - intros q. mgmt_exec; cbn [In]; intros H; mgmt_In; repeat split.
  - mgmt_exec; cbn [In]; intros H; mgmt_In.
  - intros e. mgmt_exec; intros H1 H2; congruence.
Qed.

Lemma GetJobHistory_group_addrs_witness :
  In (Mgmt.E_db (Mgmt.Find_history ["10.0.0.7:20001"] (Some 31%Z) "created_at desc" 20%Z))
     (Mgmt.trace (Mgmt.run (Mgmt.GetJobHistory MgmtDemo.W_more))) /\
  snd (Mgmt.GroupAddr MgmtDemo.W_more) = None.
Proof.
  assert (H : In (Mgmt.E_db (Mgmt.Find_history ["10.0.0.7:20001"] (Some 31%Z)
                               "created_at desc" 20%Z))
                 (Mgmt.trace (Mgmt.run (Mgmt.GetJobHistory MgmtDemo.W_more)))).
  { right. left. reflexivity. }
  split; [exact H|].
  exact (proj1 (proj1 (GetJobHistory_group_addrs MgmtDemo.W_more) _ H)).
Defined.



(** X30. Each of the six handlers writes exactly one response, whatever
    its collaborators answer. *)
Theorem Mgmt_one_response :
  forall (W : Mgmt.World),
    length (Mgmt.responses (Mgmt.trace (Mgmt.run (Mgmt.GetActivityList W)))) = 1 /\
    length (Mgmt.responses (Mgmt.trace (Mgmt.run (Mgmt.GetJobHistory W)))) = 1 /\
    length (Mgmt.responses (Mgmt.trace (Mgmt.run (Mgmt.IninAdminUser W)))) = 1 /\
    length (Mgmt.responses (Mgmt.trace (Mgmt.run (Mgmt.Signup W)))) = 1 /\
    length (Mgmt.responses (Mgmt.trace (Mgmt.run (Mgmt.UserStat W)))) = 1 /\
    length (Mgmt.responses (Mgmt.trace (Mgmt.run (Mgmt.GroupUser W)))) = 1.
Proof.
  intros W. repeat split; mgmt_exec; reflexivity.
Qed.
